(** * Ospray renderer plugin (Render/renderers/Ospray.py): model and properties

    The plugin turns scene objects into fragments of OSPRay Studio's scene
    description, writes auxiliary OBJ/MTL files, and post-processes the scene
    file before building the renderer's command line.

    Modelling conventions.
    - A Python [int] is an integer.  A Python [float] is read in two ways.
      In the exact reading it is a real number and rounding is not
      modelled: this reading serves wherever numbers are only carried,
      compared or printed.  In the binary64 reading (module [Double]) it is
      an IEEE 754 double, with the rounding, the overflow and the underflow
      of the interpreter: this reading serves the two writers whose
      properties are numerical, the area light and the sun-sky light.
    - A raised exception is a value [Raise e]; functions that touch the
      console or the disk thread a [World].
    - A JSON document is the tree [json.load] returns; a file that holds a
      JSON document is identified with that tree.
    - An f-string is the list of the pieces it concatenates: literal text,
      and formatted numbers kept symbolic ([str(x)], [format(x, ".8")]). *)

From Stdlib Require Import Floats.
From Stdlib Require Import Reals Lra ZArith String Ascii List.
From stdpp Require Import gmap strings list pretty.

Set Default Proof Using "Type".

(** ** Python exceptions and results *)

Inductive exn : Set :=
| KeyError | AttributeError | TypeError | ValueError | IndexError
| AssertionError | NotImplementedError | ZeroDivisionError
| FileNotFoundError | JSONDecodeError | OverflowError.

Global Instance exn_eq_dec : EqDecision exn.
Proof. solve_decision. Defined.

Inductive Res (A : Type) : Type :=
| Ok (a : A)
| Raise (e : exn).
Arguments Ok {A} a.
Arguments Raise {A} e.

Global Instance Res_ret : MRet Res := fun _ a => Ok a.
Global Instance Res_bind : MBind Res := fun _ _ f m =>
  match m with
  | Ok a => f a
  | Raise e => Raise e
  end.

Definition is_Ok {A} (r : Res A) : Prop :=
  match r with Ok _ => True | Raise _ => False end.

(** Monadic filter and map over a list, left to right, stopping at the first
    exception (a list comprehension whose condition may raise). *)
Fixpoint filterM {A} (p : A → Res bool) (l : list A) : Res (list A) :=
  match l with
  | [] => Ok []
  | x :: l' =>
      b ← p x;
      r ← filterM p l';
      Ok (if b : bool then x :: r else r)
  end.

Fixpoint mapM_Res {A B} (f : A → Res B) (l : list A) : Res (list B) :=
  match l with
  | [] => Ok []
  | x :: l' => y ← f x; r ← mapM_Res f l'; Ok (y :: r)
  end.

(** ** JSON documents *)

Module Json.

Unset Elimination Schemes.
Inductive json : Type :=
| JNull
| JBool (b : bool)
| JNum (r : R)
| JStr (s : string)
| JArr (l : list json)
| JObj (m : list (string * json)).
Set Elimination Schemes.

(** [d.get(k)] on the association list of a [dict] (keys in file order). *)
Fixpoint obj_get (k : string) (m : list (string * json)) : option json :=
  match m with
  | [] => None
  | (k', v) :: m' => if String.eqb k' k then Some v else obj_get k m'
  end.

(** [d[k] = v]: an existing key keeps its place, a new key goes last. *)
Fixpoint obj_set (k : string) (v : json) (m : list (string * json))
  : list (string * json) :=
  match m with
  | [] => [(k, v)]
  | (k', v') :: m' =>
      if String.eqb k' k then (k, v) :: m' else (k', v') :: obj_set k v m'
  end.

Definition Req_bool (a b : R) : bool :=
  if Req_dec_T a b then true else false.

Definition bool_num (b : bool) : R := if b then 1%R else 0%R.

(** Python's [==] on values produced by [json.load]: [True == 1], lists
    compare element-wise, dicts compare regardless of key order (the
    non-standard [NaN] literal is not modelled). *)
Fixpoint json_eqb (a b : json) {struct a} : bool :=
  match a, b with
  | JNull, JNull => true
  | JBool x, JBool y => Bool.eqb x y
  | JBool x, JNum r => Req_bool (bool_num x) r
  | JNum r, JBool y => Req_bool r (bool_num y)
  | JNum r, JNum r' => Req_bool r r'
  | JStr s, JStr s' => String.eqb s s'
  | JArr xs, JArr ys =>
      (fix go (xs ys : list json) : bool :=
         match xs, ys with
         | [], [] => true
         | x :: xs', y :: ys' => json_eqb x y && go xs' ys'
         | _, _ => false
         end) xs ys
  | JObj m, JObj n =>
      Nat.eqb (length m) (length n)
      && forallb (fun kv =>
                    match obj_get (fst kv) n with
                    | Some v' => json_eqb (snd kv) v'
                    | None => false
                    end) m
  | _, _ => false
  end.

(** [x[k]] with a string key. *)
Definition getitem (x : json) (k : string) : Res json :=
  match x with
  | JObj m => match obj_get k m with Some v => Ok v | None => Raise KeyError end
  | _ => Raise TypeError
  end.

(** [x.get(k)], default [None]. *)
Definition dict_get (x : json) (k : string) : Res json :=
  match x with
  | JObj m => Ok (default JNull (obj_get k m))
  | _ => Raise AttributeError
  end.

Definition chars (s : string) : list json :=
  map (fun c => JStr (String c EmptyString)) (list_ascii_of_string s).

(** The items a [for] loop (or [list +=]) sees in a value. *)
Definition iter (x : json) : Res (list json) :=
  match x with
  | JArr l => Ok l
  | JStr s => Ok (chars s)
  | JObj m => Ok (map (fun kv => JStr (fst kv)) m)
  | _ => Raise TypeError
  end.

(** [reversed(x)]. *)
Definition reversed (x : json) : Res (list json) :=
  l ← iter x; Ok (rev l).

(** [l.remove(x)]: drop the first item equal to [x]. *)
Fixpoint list_remove (x : json) (l : list json) : Res (list json) :=
  match l with
  | [] => Raise ValueError
  | y :: l' =>
      if json_eqb y x then Ok l'
      else l'' ← list_remove x l'; Ok (y :: l'')
  end.

(** Replace [doc[k1][k2]] (both lookups are known to succeed when used). *)
Definition set_path2 (doc : json) (k1 k2 : string) (v : json) : json :=
  match doc with
  | JObj top =>
      match obj_get k1 top with
      | Some (JObj inner) => JObj (obj_set k1 (JObj (obj_set k2 v inner)) top)
      | _ => doc
      end
  | _ => doc
  end.

(** [doc[k] = v] with a string key. *)
Definition setitem (doc : json) (k : string) (v : json) : Res json :=
  match doc with
  | JObj top => Ok (JObj (obj_set k v top))
  | _ => Raise TypeError
  end.

End Json.
Export Json.

(** ** Post-processing of the scene graph *)

Module Scene.

(** [c.get("freecadtype") == "camera"] *)
Definition is_camera (c : json) : Res bool :=
  t ← dict_get c "freecadtype"; Ok (json_eqb t (JStr "camera")).

(** The body of [for index, cam in enumerate(cameras)]. *)
Fixpoint keep1cam_loop (index : nat) (cameras world_children : list json)
  : Res (list json) :=
  match cameras with
  | [] => Ok world_children
  | cam :: cameras' =>
      wc ← list_remove cam world_children;
      keep1cam_loop (S index) cameras'
        (if Nat.eqb index 0 then cam :: wc else wc)
  end.

Definition identity_camera : json :=
  JObj [("cameraIdx", JNum 1);
        ("cameraToWorld",
          JObj [("affine", JArr [JNum 0; JNum 0; JNum 0]);
                ("linear",
                  JObj [("x", JArr [JNum 1; JNum 0; JNum 0]);
                        ("y", JArr [JNum 0; JNum 1; JNum 0]);
                        ("z", JArr [JNum 0; JNum 0; JNum 1])])])].

Definition _render_keep1cam (scene_graph : json) : Res json :=
  world ← getitem scene_graph "world";
  world_children ← getitem world "children";
  rev_children ← reversed world_children;
  cameras ← filterM is_camera rev_children;
  world_children' ←
    match world_children, cameras with
    | JArr l, _ => l' ← keep1cam_loop 0 cameras l; Ok (JArr l')
    | _, [] => Ok world_children
    | _, _ :: _ => Raise AttributeError
    end;
  setitem (set_path2 scene_graph "world" "children" world_children')
          "camera" identity_camera.

(** [x["type"] == "LIGHTS"] *)
Definition is_lights (x : json) : Res bool :=
  t ← getitem x "type"; Ok (json_eqb t (JStr "LIGHTS")).

(** [list.sort(key=...)] with boolean keys: a stable insertion sort,
    [False] before [True]. *)
Definition key_lt (a b : bool) : bool := negb a && b.

Fixpoint insert_by_key (kx : bool * json) (l : list (bool * json))
  : list (bool * json) :=
  match l with
  | [] => [kx]
  | ky :: l' =>
      if key_lt (fst ky) (fst kx) then ky :: insert_by_key kx l'
      else kx :: l
  end.

Definition sort_by_key (l : list (bool * json)) : list (bool * json) :=
  foldr insert_by_key [] l.

Definition list_sort (key : json → Res bool) (l : list json)
  : Res (list json) :=
  keys ← mapM_Res key l;
  Ok (map snd (sort_by_key (zip keys l))).

(** The [while remaining_lightgroups()] loop, on the reversed list: the
    head is [world_children[-1]]. *)
Fixpoint pop_lightgroups (rev_children lights : list json)
  : Res (list json * list json) :=
  match rev_children with
  | [] => Ok ([], lights)
  | child :: rest =>
      b ← is_lights child;
      if b : bool then
        ch ← getitem child "children";
        items ← iter ch;
        pop_lightgroups rest (lights ++ items)
      else Ok (rev_children, lights)
  end.

Definition _render_mergelightgroups (json_result : json) : Res json :=
  world ← getitem json_result "world";
  world_children ← getitem world "children";
  sorted ←
    match world_children with
    | JArr l => list_sort is_lights l
    | _ => Raise AttributeError
    end;
  '(rev_left, lights) ← pop_lightgroups (rev sorted) [];
  let json_result :=
    set_path2 json_result "world" "children" (JArr (rev rev_left)) in
  lm ← getitem json_result "lightsManager";
  lightsmanager_children ← getitem lm "children";
  match lightsmanager_children with
  | JArr l =>
      Ok (set_path2 json_result "lightsManager" "children"
            (JArr (l ++ lights)))
  | _ => Raise AttributeError
  end.

(** Pure views used to state properties. *)
Definition is_camera_b (c : json) : bool :=
  match is_camera c with Ok b => b | Raise _ => false end.

Definition is_lights_b (x : json) : bool :=
  match is_lights x with Ok b => b | Raise _ => false end.

Definition node_children (x : json) : list json :=
  match getitem x "children" with Ok (JArr l) => l | _ => [] end.

(** World children that are pairwise different for [==] (and each equal
    to itself), as nodes with unique names are. *)
Inductive distinct : list json → Prop :=
| distinct_nil : distinct []
| distinct_cons (x : json) (l : list json) :
    json_eqb x x = true →
    Forall (λ y, json_eqb x y = false ∧ json_eqb y x = false) l →
    distinct l →
    distinct (x :: l).

(** A world child the flattening pass can process: it has a ["type"], and
    a light group has a list of children. *)
Definition wf_node (x : json) : Prop :=
  is_Ok (is_lights x)
  ∧ (is_lights x = Ok true → ∃ l, getitem x "children" = Ok (JArr l)).

Definition world_children (doc : json) : Res json :=
  w ← getitem doc "world"; getitem w "children".

Definition lightsmanager_children (doc : json) : Res json :=
  w ← getitem doc "lightsManager"; getitem w "children".

End Scene.

(** ** Float literals: the strings [float] accepts *)

Module FloatLiteral.

(** A literal: the decimal number [m * 10 ^ e] with its sign, an infinity,
    or a NaN. *)
Inductive literal : Type :=
| Decimal (neg : bool) (m e : Z)
| Infinity (neg : bool)
| NotANumber.

Definition code (c : ascii) : nat := nat_of_ascii c.

Definition is_digit (c : ascii) : bool :=
  Nat.leb 48 (code c) && Nat.leb (code c) 57.

(** The spaces beyond ASCII (U+0085, U+00A0) count as blanks; any other
    character from 127 on is no part of a literal. *)
Definition to_ascii (c : ascii) : ascii :=
  if Nat.ltb (code c) 127 then c
  else if Nat.eqb (code c) 133 || Nat.eqb (code c) 160 then " "%char
  else "?"%char.

Definition is_space (c : ascii) : bool :=
  (Nat.leb 9 (code c) && Nat.leb (code c) 13) || Nat.eqb (code c) 32.

Fixpoint lstrip (l : list ascii) : list ascii :=
  match l with
  | c :: l' => if is_space c then lstrip l' else l
  | [] => []
  end.

Definition strip (l : list ascii) : list ascii :=
  rev (lstrip (rev (lstrip l))).

(** An underscore stands between two digits, or the string is refused;
    the underscores are dropped. *)
Fixpoint drop_underscores (prev : ascii) (l : list ascii)
  : option (list ascii) :=
  match l with
  | [] => if Ascii.eqb prev "_" then None else Some []
  | c :: l' =>
      if Ascii.eqb c "_" then
        if is_digit prev then drop_underscores c l' else None
      else if Ascii.eqb prev "_" && negb (is_digit c) then None
      else option_map (cons c) (drop_underscores c l')
  end.

Fixpoint span_digits (l : list ascii) : list ascii * list ascii :=
  match l with
  | c :: l' =>
      if is_digit c then let '(d, r) := span_digits l' in (c :: d, r)
      else ([], l)
  | [] => ([], [])
  end.

Definition digits_value (d : list ascii) : Z :=
  fold_left (fun acc c => (10 * acc + Z.of_nat (code c - 48))%Z) d 0%Z.

Definition lower (c : ascii) : ascii :=
  if Nat.leb 65 (code c) && Nat.leb (code c) 90
  then ascii_of_nat (code c + 32) else c.

Definition split_sign (l : list ascii) : bool * list ascii :=
  match l with
  | c :: l' =>
      if Ascii.eqb c "-" then (true, l')
      else if Ascii.eqb c "+" then (false, l')
      else (false, l)
  | [] => (false, [])
  end.

(** What may follow the mantissa: nothing, or [e], a sign and digits. *)
Definition exponent (l : list ascii) : option Z :=
  match l with
  | [] => Some 0%Z
  | c :: l' =>
      if Ascii.eqb (lower c) "e" then
        let '(neg, l'') := split_sign l' in
        match span_digits l'' with
        | ((_ :: _) as d, []) =>
            Some (if neg : bool then (- digits_value d)%Z else digits_value d)
        | _ => None
        end
      else None
  end.

Definition number (neg : bool) (l : list ascii) : option literal :=
  let '(ip, r) := span_digits l in
  let '(fp, r) :=
    match r with
    | c :: r' => if Ascii.eqb c "." then span_digits r' else ([], r)
    | [] => ([], [])
    end in
  match ip ++ fp with
  | [] => None
  | ds =>
      match exponent r with
      | Some e =>
          Some (Decimal neg (digits_value ds) (e - Z.of_nat (length fp)))
      | None => None
      end
  end.

(** The literal a string spells, if any. *)
Definition parse (s : string) : option literal :=
  match drop_underscores (ascii_of_nat 0)
          (strip (map to_ascii (list_ascii_of_string s))) with
  | None => None
  | Some t =>
      let '(neg, rest) := split_sign t in
      let low := string_of_list_ascii (map lower rest) in
      if String.eqb low "inf" || String.eqb low "infinity"
      then Some (Infinity neg)
      else if String.eqb low "nan" then Some NotANumber
      else number neg rest
  end.


(** Whether the binary64 float nearest to [m * 10 ^ e] is other than zero:
    a number up to [2 ^ -1075] rounds to zero. *)
Definition decimal_nonzero (m e : Z) : bool :=
  if (m =? 0)%Z then false
  else if (0 <=? e)%Z then true
  else (10 ^ (- e) <? m * 2 ^ 1075)%Z.

(** Whether an [int] is beyond the range of binary64. *)
Definition int_overflows (z : Z) : bool :=
  (2 ^ 1024 - 2 ^ 970 <=? Z.abs z)%Z.

End FloatLiteral.

(** ** Python values handled by the writers *)

Module PyVal.

(** Modelled from the spec: the colour and texture classes of the material
    module, which this file consumes and does not define.  An RGB colour is
    known through [to_linear()], whose result is a tuple of floats; a texture
    through its data attributes ([file], [scale], [rotation], ...). *)
Unset Elimination Schemes.
Inductive pyval : Type :=
| PyNone
| PyBool (b : bool)
| PyInt (z : Z)
| PyFloat (r : R)
| PyStr (s : string)
| PyRGB (lin : list R)
| PyTexture (file : string) (scale rotation translation_u translation_v : R)
| PyObject (attrs : list (string * pyval)).
Set Elimination Schemes.

(** A piece of formatted text. *)
Unset Elimination Schemes.
Inductive piece : Type :=
| T (s : string)            (* literal text *)
| NL                        (* a newline *)
| FStr (x : R)              (* [str(x)] of a float *)
| FStr64 (x : float)        (* [str(x)] of a float, in the binary64 reading *)
| F8 (x : R)                (* [format(x, ".8")] of a float *)
| ObjRepr (v : pyval)       (* [str(v)] of any other object *)
| Formatted (template : list piece) (n : string) (c : list R) (tex : pyval).
                            (* [template.format(n=, c=, tex=)] *)
Set Elimination Schemes.

Abbreviation text := (list piece).

Definition Rle_bool (a b : R) : bool := if Rle_dec a b then true else false.

Fixpoint attr_get (k : string) (m : list (string * pyval)) : option pyval :=
  match m with
  | [] => None
  | (k', v) :: m' => if String.eqb k' k then Some v else attr_get k m'
  end.

(** [getattr(v, name)] for a data attribute.  A colour offers its methods
    only: it has no [default_color] of its own. *)
Definition py_getattr (v : pyval) (name : string) : Res pyval :=
  match v with
  | PyObject attrs =>
      match attr_get name attrs with
      | Some x => Ok x
      | None => Raise AttributeError
      end
  | PyTexture file scale rotation tu tv =>
      if String.eqb name "file" then Ok (PyStr file)
      else if String.eqb name "scale" then Ok (PyFloat scale)
      else if String.eqb name "rotation" then Ok (PyFloat rotation)
      else if String.eqb name "translation_u" then Ok (PyFloat tu)
      else if String.eqb name "translation_v" then Ok (PyFloat tv)
      else if String.eqb name "is_texture" then Ok (PyBool true)
      else Raise AttributeError
  | _ => Raise AttributeError
  end.

Definition py_hasattr (v : pyval) (name : string) : bool :=
  match py_getattr v name with Ok _ => true | Raise _ => false end.

(** [v.to_linear()] *)
Definition to_linear (v : pyval) : Res (list R) :=
  match v with
  | PyRGB lin => Ok lin
  | _ => Raise AttributeError
  end.

(** [lcol[i]] on a tuple of floats. *)
Definition tuple_index (lcol : list R) (i : nat) : Res R :=
  match nth_error lcol i with
  | Some x => Ok x
  | None => Raise IndexError
  end.


(** [bool(float(v))]: whether the float is other than zero.  For a string
    the test is that of binary64, where a tiny literal rounds to zero and
    infinity and NaN are truthy. *)
Definition py_float_truthy (v : pyval) : Res bool :=
  match v with
  | PyFloat r => Ok (negb (Req_bool r 0))
  | PyInt z =>
      if FloatLiteral.int_overflows z then Raise OverflowError
      else Ok (negb (z =? 0)%Z)
  | PyBool b => Ok b
  | PyStr s =>
      match FloatLiteral.parse s with
      | Some (FloatLiteral.Decimal _ m e) =>
          Ok (FloatLiteral.decimal_nonzero m e)
      | Some _ => Ok true
      | None => Raise ValueError
      end
  | _ => Raise TypeError
  end.

(** [1 - v] *)
Definition py_one_minus (v : pyval) : Res pyval :=
  match v with
  | PyFloat r => Ok (PyFloat (1 - r))
  | PyInt z => Ok (PyInt (1 - z))
  | PyBool b => Ok (PyInt (1 - (if b then 1 else 0)))
  | _ => Raise TypeError
  end.

(** [v <= 0.0] *)
Definition py_le_zero (v : pyval) : Res bool :=
  match v with
  | PyFloat r => Ok (Rle_bool r 0)
  | PyInt z => Ok (Z.leb z 0)
  | PyBool b => Ok (negb b)
  | _ => Raise TypeError
  end.

(** [f"{v}"] *)
Definition str_piece (v : pyval) : piece :=
  match v with
  | PyStr s => T s
  | PyInt z => T (pretty z)
  | PyBool b => T (if b then "True" else "False")
  | PyNone => T "None"
  | PyFloat r => FStr r
  | _ => ObjRepr v
  end.

(** [f"{v:.8}"]: a float is printed with 8 significant digits, a string is
    cut to 8 characters, an integer refuses a precision. *)
Definition fmt8 (v : pyval) : Res piece :=
  match v with
  | PyFloat r => Ok (F8 r)
  | PyStr s => Ok (T (String.substring 0 8 s))
  | PyInt _ | PyBool _ => Raise ValueError
  | _ => Raise TypeError
  end.

(** ["\n".join(lines)] *)
Fixpoint join_lines (lines : list text) : text :=
  match lines with
  | [] => []
  | [l] => l
  | l :: ls => l ++ NL :: join_lines ls
  end.

End PyVal.
Export PyVal.

(** ** The world: console, files, preferences *)

Inductive console_msg : Type :=
| PrintWarning (s : string)   (* App.Console.PrintWarning *)
| PrintError (s : string)     (* App.Console.PrintError *)
| Print (s : string).         (* print *)

Inductive fcontent : Type :=
| FText (t : text)
| FJson (j : json).

Record World : Type := mkWorld {
  console : list console_msg;              (* oldest message first *)
  files : gmap string fcontent;
  prefs : gmap string string;              (* BaseApp/Preferences/Mod/Render *)
  user_cache_path : string;                (* App.getUserCachePath() *)
  os_path_relpath : string → string → string;
                         (* os.path.relpath, resolved in the process's cwd *)
}.

Definition Py (A : Type) : Type := World → Res A * World.

Global Instance Py_ret : MRet Py := fun _ a w => (Ok a, w).
Global Instance Py_bind : MBind Py := fun _ _ f m w =>
  match m w with
  | (Ok a, w') => f a w'
  | (Raise e, w') => (Raise e, w')
  end.

Definition lift {A} (r : Res A) : Py A := fun w => (r, w).
Definition raise {A} (e : exn) : Py A := fun w => (Raise e, w).

Definition emit (m : console_msg) : Py unit := fun w =>
  (Ok tt, mkWorld (console w ++ [m]) (files w) (prefs w) (user_cache_path w)
            (os_path_relpath w)).

Definition write_file (path : string) (c : fcontent) : Py unit := fun w =>
  (Ok tt, mkWorld (console w) (<[path := c]> (files w)) (prefs w)
            (user_cache_path w) (os_path_relpath w)).

(** [os.remove(path)] inside [try ... except FileNotFoundError: pass] *)
Definition remove_if_exists (path : string) : Py unit := fun w =>
  (Ok tt, mkWorld (console w) (delete path (files w)) (prefs w)
            (user_cache_path w) (os_path_relpath w)).

(** [json.load(open(path))] *)
Definition load_json (path : string) : Py json := fun w =>
  match files w !! path with
  | None => (Raise FileNotFoundError, w)
  | Some (FText _) => (Raise JSONDecodeError, w)
  | Some (FJson j) => (Ok j, w)
  end.

Definition relpath (path start : string) : Py string := fun w =>
  (Ok (os_path_relpath w path start), w).

(** [params.GetString(key, "")] *)
Definition GetString (key : string) : Py string := fun w =>
  (Ok (default "" (prefs w !! key)), w).

(** ** Material implementation *)

Module Materials.

Definition nl : string := String (ascii_of_nat 10) EmptyString.

(** Modelled from the spec: the material-value bundle of the material module
    (not defined in this file), an opaque capability object that supplies the
    formatted string of each shader property ([matval[propname]]), a few
    flags ([has_normal()], [default_color]) and the sub-bundles of a mixed
    material. *)
Unset Elimination Schemes.
Inductive MaterialValues : Type := mkMaterialValues {
  shadertype : string;
  default_color : pyval;
  mv_getitem : string → Res text;               (* matval[propname] *)
  has_normal : bool;
  write_textures : text;
  passthrough_texture : pyval;
  getmixedsubmat : string → string → Res MaterialValues;
  mixed_transparency : pyval;        (* matval.material.mixed.transparency *)
  shaderproperties : list (string * pyval);
                                     (* matval.material.shaderproperties *)
  get_normal_factor : pyval;
  get_bump_factor : pyval;
}.
Set Elimination Schemes.

(** A triple-quoted template: a leading newline, then each line. *)
Definition template (lines : list text) : text :=
  NL :: concat (map (fun l => l ++ [NL]) lines).

(** [matval["normal"] if matval.has_normal() else ""] *)
Definition normal_line (matval : MaterialValues) : Res text :=
  if has_normal matval then mv_getitem matval "normal" else Ok [].

Definition DISNEY_IOR : R := (15 / 10)%R.

Definition _write_material_passthrough (name : string)
    (matval : MaterialValues) : Res text :=
  let texture := passthrough_texture matval in
  s ← mv_getitem matval "string";
  c ← to_linear (default_color matval);
  Ok [Formatted ([NL; T "# Passthrough"; NL] ++ s) name c texture].

Definition _write_material_glass (name : string)
    (matval : MaterialValues) : Res text :=
  ior ← mv_getitem matval "ior";
  color ← mv_getitem matval "color";
  normal ← normal_line matval;
  Ok (template [[T "# Glass"]; [T "type principled"]; ior; color;
                [T "transmission 1"]; [T "specular 1"]; [T "metallic 0"];
                [T "diffuse 0"]; [T "opacity 1"]; normal]).

Definition _write_material_disney (name : string)
    (matval : MaterialValues) : Res text :=
  basecolor ← mv_getitem matval "basecolor";
  metallic ← mv_getitem matval "metallic";
  specular ← mv_getitem matval "specular";
  roughness ← mv_getitem matval "roughness";
  anisotropic ← mv_getitem matval "anisotropic";
  sheen ← mv_getitem matval "sheen";
  sheentint ← mv_getitem matval "sheentint";
  clearcoat ← mv_getitem matval "clearcoat";
  clearcoatgloss ← mv_getitem matval "clearcoatgloss";
  normal ← normal_line matval;
  Ok (template [[T "# Disney"]; [T "type principled"]; basecolor;
                [T "# No subsurface scattering (Ospray limitation)"];
                metallic; specular;
                [T "# No specular tint (Ospray limitation)"];
                roughness; anisotropic; sheen; sheentint; clearcoat;
                clearcoatgloss; normal;
                [T "ior "; FStr DISNEY_IOR];
                [T "coatIor "; FStr DISNEY_IOR]]).

Definition _write_material_pbr (name : string)
    (matval : MaterialValues) : Res text :=
  basecolor ← mv_getitem matval "basecolor";
  metallic ← mv_getitem matval "metallic";
  specular ← mv_getitem matval "specular";
  roughness ← mv_getitem matval "roughness";
  normal ← normal_line matval;
  Ok (template [[T "# Pbr ('"; T name; T "')"]; [T "type principled"];
                basecolor;
                [T "# No subsurface scattering (Ospray limitation)"];
                metallic; specular; roughness; normal]).

Definition _write_material_diffuse (name : string)
    (matval : MaterialValues) : Res text :=
  color ← mv_getitem matval "color";
  normal ← normal_line matval;
  Ok (template [[T "# Diffuse"]; [T "type principled"]; color;
                [T "metallic 0"]; [T "specular 0"]; [T "diffuse 1"];
                normal]).

Definition _write_material_mixed (name : string)
    (matval : MaterialValues) : Res text :=
  submat_g ← getmixedsubmat matval "glass" (name +:+ "_glass");
  let snippet_g_tex := write_textures submat_g in
  submat_d ← getmixedsubmat matval "diffuse" (name +:+ "_diffuse");
  let snippet_d_tex := write_textures submat_d in
  match mixed_transparency matval with
  | PyFloat transparency =>
      d_color ← mv_getitem submat_d "color";
      g_ior ← mv_getitem submat_g "ior";
      g_color ← mv_getitem submat_g "color";
      normal ← normal_line matval;
      let snippet_mix :=
        template [[T "# Mixed"]; [T "type principled"]; d_color; g_ior;
                  [T "transmission "; FStr transparency]; g_color;
                  [T "opacity "; FStr (1 - transparency)];
                  [T "specular 0.5"]; normal] in
      Ok (snippet_mix ++ snippet_d_tex ++ snippet_g_tex)
  | _ => Raise AssertionError
  end.

Definition _write_material_carpaint (name : string)
    (matval : MaterialValues) : Res text :=
  basecolor ← mv_getitem matval "basecolor";
  normal ← normal_line matval;
  Ok (template [[T "# Carpaint"]; [T "type carPaint"]; basecolor; normal]).

Definition caught_by_fallback (e : exn) : bool :=
  match e with
  | AttributeError | ValueError | TypeError | AssertionError => true
  | _ => false
  end.

(** The [kd] line and its frame. *)
Definition fallback_snippet (red grn blu : pyval) : text :=
  template [[T "# Fallback"]; [T "type obj"];
            [T "kd "; str_piece red; T " "; str_piece grn; T " ";
             str_piece blu];
            [T "ns 2"]].

Definition in_unit (x : R) : bool := Rle_bool 0 x && Rle_bool x 1.

(** Views used to state properties: the number a value stands for, a
    component within [0, 1], clamping. *)
Definition py_num (v : pyval) : option R :=
  match v with
  | PyInt z => Some (IZR z)
  | PyFloat r => Some r
  | _ => None
  end.

Definition unit_component (v : pyval) : Prop :=
  ∃ x, py_num v = Some x ∧ (0 <= x <= 1)%R.

Definition clamp01 (x : R) : R := Rmax 0 (Rmin 1 x).

Definition _write_material_fallback (name : string) (matval : pyval)
    : Res text :=
  let attempt : Res (pyval * pyval * pyval) :=
    dc ← py_getattr matval "default_color";
    lcol ← to_linear dc;
    red ← tuple_index lcol 0;
    grn ← tuple_index lcol 1;
    blu ← tuple_index lcol 2;
    if in_unit red && in_unit grn && in_unit blu
    then Ok (PyFloat red, PyFloat grn, PyFloat blu)
    else Raise AssertionError in
  '(red, grn, blu) ←
    match attempt with
    | Ok rgb => Ok rgb
    | Raise e =>
        if caught_by_fallback e then Ok (PyInt 1, PyInt 1, PyInt 1)
        else Raise e
    end;
  Ok (fallback_snippet red grn blu).

Definition _write_material_emission (name : string)
    (matval : MaterialValues) : Res text :=
  color ← mv_getitem matval "color";
  power ← mv_getitem matval "power";
  Ok (template [[T "# Emission ('"; T name; T "')"]; [T "type luminous"];
                color; power; [T "transparency 0.0"]]).

Definition MATERIALS : gmap string (string → MaterialValues → Res text) :=
  list_to_map [
    ("Passthrough", _write_material_passthrough);
    ("Glass", _write_material_glass);
    ("Disney", _write_material_disney);
    ("Diffuse", _write_material_diffuse);
    ("Mixed", _write_material_mixed);
    ("Carpaint", _write_material_carpaint);
    ("Substance_PBR", _write_material_pbr);
    ("Emission", _write_material_emission)
  ].

(** The keys of [MATERIALS]. *)
Definition eight_materials : list string :=
  ["Passthrough"; "Glass"; "Disney"; "Diffuse"; "Mixed"; "Carpaint";
   "Substance_PBR"; "Emission"].

Definition _write_material (name : string) (matval : MaterialValues)
    : Py text :=
  match MATERIALS !! shadertype matval with
  | None =>
      _ ← emit (PrintWarning
                  ("'" +:+ name +:+ "' - Material '" +:+ shadertype matval
                   +:+ "' unknown by renderer, using fallback material"
                   +:+ nl));
      lift (_write_material_fallback name (default_color matval))
  | Some material_function =>
      snippet ← lift (material_function name matval);
      mret (snippet ++ write_textures matval)
  end.

(** *** Textures and values *)

(** Field mapping from internal materials to OBJ ones; [None] excludes. *)
Definition _FIELD_MAPPING : gmap (string * string) (option string) :=
  list_to_map [
    (("Diffuse", "color"), Some "baseColor");
    (("Diffuse", "bump"), None);
    (("Diffuse", "displacement"), None);
    (("Substance_PBR", "basecolor"), Some "baseColor");
    (("Substance_PBR", "bump"), None);
    (("Disney", "basecolor"), Some "baseColor");
    (("Disney", "subsurface"), Some "");
    (("Disney", "speculartint"), Some "");
    (("Disney", "anisotropic"), Some "anisotropy");
    (("Disney", "sheentint"), Some "sheenTint");
    (("Disney", "clearcoat"), Some "coat");
    (("Disney", "clearcoatgloss"), Some "coatRoughness");
    (("Disney", "bump"), None);
    (("Disney", "displacement"), None);
    (("Glass", "color"), Some "transmissionColor");
    (("Glass", "ior"), Some "ior");
    (("Glass", "bump"), None);
    (("Glass", "displacement"), None);
    (("Carpaint", "basecolor"), Some "baseColor");
    (("Mixed", "transparency"), Some "transmission");
    (("Mixed", "diffuse"), Some "");
    (("Mixed", "shader"), Some "");
    (("Mixed", "glass"), Some "");
    (("Mixed", "bump"), None);
    (("Mixed", "displacement"), None);
    (("glass", "color"), Some "transmissionColor");
    (("diffuse", "color"), Some "baseColor");
    (("Emission", "power"), Some "intensity");
    (("Passthrough", "string"), Some "");
    (("Passthrough", "renderer"), Some "")
  ].

(** [_FIELD_MAPPING.get((shadertype, propname), propname)]; the result
    [None] is Python's [None]. *)
Definition field_of (shadertype propname : string) : option string :=
  default (Some propname) (_FIELD_MAPPING !! (shadertype, propname)).

(** The keyword arguments of the three helpers. *)
Record PropArgs : Type := mkPropArgs {
  kw_proptype : string;
  kw_propname : string;
  kw_shadertype : string;
  kw_propvalue : pyval;
  kw_objname : string;
  kw_matval : MaterialValues;
  kw_object_directory : string;
}.

Definition str_in (s : string) (l : list string) : bool :=
  existsb (String.eqb s) l.

Definition not_supported_warning (kw : PropArgs) : console_msg :=
  PrintWarning
    ("[Render] [Ospray] [" +:+ kw_objname kw +:+ "] Warning: '"
     +:+ kw_shadertype kw +:+ "::" +:+ kw_propname kw
     +:+ "' is not supported by Ospray. Skipping..." +:+ nl).


(** The special cases of [_write_value]: [clearcoatgloss] is inverted,
    [specular] follows [metallic]. *)
Definition _write_value_special_cases (kw : PropArgs) : Res pyval :=
  let propname := kw_propname kw in
  let val := kw_propvalue kw in
  val ← (if String.eqb propname "clearcoatgloss" then py_one_minus val
         else Ok val);
  if String.eqb propname "specular" then
    match attr_get "metallic" (shaderproperties (kw_matval kw)) with
    | None => Ok val
    | Some metallic =>
        truthy ← (if py_hasattr metallic "is_texture" then Ok true
                  else py_float_truthy metallic);
        if truthy : bool then
          le ← py_le_zero val;
          Ok (if le : bool then metallic else val)
        else Ok val
    end
  else Ok val.

(** The snippets for values of [_write_value]: a branch per type. *)
Definition _write_value_snippets (field proptype : string) (val : pyval)
    : Res text :=
  if String.eqb proptype "RGB" then
    lcol ← to_linear val;
    c0 ← tuple_index lcol 0;
    c1 ← tuple_index lcol 1;
    c2 ← tuple_index lcol 2;
    Ok [T field; T " "; F8 c0; T " "; F8 c1; T " "; F8 c2]
  else if String.eqb proptype "float" then
    v ← fmt8 val; Ok [T field; T " "; v]
  else if String.eqb proptype "node" then Ok []
  else if String.eqb proptype "RGBA" then
    lcol ← to_linear val;
    c0 ← tuple_index lcol 0;
    c1 ← tuple_index lcol 1;
    c2 ← tuple_index lcol 2;
    c3 ← tuple_index lcol 3;
    Ok [T field; T " "; F8 c0; T " "; F8 c1; T " "; F8 c2; T " "; F8 c3]
  else if String.eqb proptype "str" then
    Ok [T field; T " "; str_piece val]
  else Raise NotImplementedError.

Definition _write_value (kw : PropArgs) : Py text :=
  match field_of (kw_shadertype kw) (kw_propname kw) with
  | None => _ ← emit (not_supported_warning kw); mret []
  | Some field =>
      val ← lift (_write_value_special_cases kw);
      lift (_write_value_snippets field (kw_proptype kw) val)
  end.

Definition _write_texref (kw : PropArgs) : Py text :=
  let proptype := kw_proptype kw in
  let propname := kw_propname kw in
  let matval := kw_matval kw in
  match field_of (kw_shadertype kw) propname with
  | None => _ ← emit (not_supported_warning kw); mret []
  | Some field =>
      if str_in propname ["clearcoatgloss"; "ior"] then
        mret (if String.eqb propname "ior" then [T field; T " 1.5"]
              else [T field; T " 1.0"])
      else if String.eqb proptype "RGB" then
        mret [T field; T " 1.0 1.0 1.0"]
      else if String.eqb proptype "float" then mret [T field; T " 1.0"]
      else if String.eqb proptype "node" then mret [T field; T " 1.0"]
      else if String.eqb proptype "RGBA" then
        mret [T field; T " 1.0 1.0 1.0 1.0"]
      else if String.eqb proptype "texonly" then
        mret (if String.eqb propname "normal" then [T field; T " 4.0"]
              else [T field; T " 1.0"])
      else if String.eqb proptype "texscalar" then
        let normal_factor := get_normal_factor matval in
        let bump_factor := get_bump_factor matval in
        mret (if String.eqb propname "normal"
              then [T field; T " "; str_piece normal_factor]
              else [T field; T " "; str_piece bump_factor])
      else raise NotImplementedError
  end.

End Materials.

(** ** Paths and strings of the standard library *)

Module OsPath.

Definition dq : string := String (ascii_of_nat 34) EmptyString.
Definition sep : string := "/".

Definition ends_with_sep (s : string) : bool :=
  match rev (list_ascii_of_string s) with
  | c :: _ => Ascii.eqb c "/"%char
  | [] => false
  end.

Definition starts_with_sep (s : string) : bool :=
  match s with
  | String c _ => Ascii.eqb c "/"%char
  | EmptyString => false
  end.

(** [os.path.join(a, b)] (POSIX). *)
Definition join (a b : string) : string :=
  if starts_with_sep b then b
  else if String.eqb a "" || ends_with_sep a then a +:+ b
  else a +:+ sep +:+ b.

(** [os.path.basename(p)]: what follows the last separator. *)
Fixpoint basename_from (p acc : string) : string :=
  match p with
  | EmptyString => acc
  | String c p' =>
      if Ascii.eqb c "/"%char then basename_from p' ""
      else basename_from p' (acc +:+ String c EmptyString)
  end.
Definition basename (p : string) : string := basename_from p "".

Definition hex_digit (n : nat) : string :=
  String (nth n (list_ascii_of_string "0123456789abcdef") "0"%char)
         EmptyString.

(** [s.encode("unicode_escape").decode("utf-8")], a character standing for
    its code point (below 256). *)
Definition unicode_escape_char (c : ascii) : string :=
  let n := nat_of_ascii c in
  if Nat.eqb n 92 then "\\"
  else if Nat.eqb n 9 then "\t"
  else if Nat.eqb n 10 then "\n"
  else if Nat.eqb n 13 then "\r"
  else if Nat.ltb n 32 || Nat.ltb 126 n
       then "\x" +:+ hex_digit (n / 16) +:+ hex_digit (n mod 16)
  else String c EmptyString.

Fixpoint unicode_escape (s : string) : string :=
  match s with
  | EmptyString => EmptyString
  | String c s' => unicode_escape_char c +:+ unicode_escape s'
  end.

End OsPath.

(** ** Geometry of the host application, and [math] *)

Module Geom.

Local Open Scope R_scope.

(** Modelled from the spec: the vector, matrix and placement types of the
    host application ([App.Vector], [App.Matrix], [App.Placement]): a
    placement is a rigid transform, composed by matrix multiplication. *)
Record Vector : Type := mkVector { vx : R; vy : R; vz : R }.

(** [App.Matrix(a11, a12, ..., a44)], row by row. *)
Record Matrix : Type := mkMatrix {
  a11 : R; a12 : R; a13 : R; a14 : R;
  a21 : R; a22 : R; a23 : R; a24 : R;
  a31 : R; a32 : R; a33 : R; a34 : R;
  a41 : R; a42 : R; a43 : R; a44 : R;
}.

(** A placement is a rigid motion: the rotation (rows [r1 r2 r3]) followed
    by the translation [Base]. *)
Record Placement : Type := mkPlacement {
  r1 : Vector; r2 : Vector; r3 : Vector; Base : Vector;
}.

(** [App.Placement(matrix)] for a matrix that is a rigid motion. *)
Definition Placement_of_Matrix (m : Matrix) : Placement :=
  mkPlacement (mkVector (a11 m) (a12 m) (a13 m))
              (mkVector (a21 m) (a22 m) (a23 m))
              (mkVector (a31 m) (a32 m) (a33 m))
              (mkVector (a14 m) (a24 m) (a34 m)).

Definition dot (u v : Vector) : R := vx u * vx v + vy u * vy v + vz u * vz v.

(** [p.multVec(v)] *)
Definition multVec (p : Placement) (v : Vector) : Vector :=
  mkVector (dot (r1 p) v + vx (Base p))
           (dot (r2 p) v + vy (Base p))
           (dot (r3 p) v + vz (Base p)).

Definition col (p : Placement) (i : nat) : Vector :=
  match i with
  | O => mkVector (vx (r1 p)) (vx (r2 p)) (vx (r3 p))
  | S O => mkVector (vy (r1 p)) (vy (r2 p)) (vy (r3 p))
  | _ => mkVector (vz (r1 p)) (vz (r2 p)) (vz (r3 p))
  end.

(** [p.multiply(q)]: [q] first, then [p]. *)
Definition multiply (p q : Placement) : Placement :=
  let row (r : Vector) :=
    mkVector (dot r (col q 0)) (dot r (col q 1)) (dot r (col q 2)) in
  mkPlacement (row (r1 p)) (row (r2 p)) (row (r3 p)) (multVec p (Base q)).

(** [a / b] on floats, in the exact reading. *)
Definition py_div (a b : R) : Res R :=
  if Req_bool b 0 then Raise ZeroDivisionError else Ok (a / b).

(** [math.asin], [math.atan2], [math.degrees] in the exact reading: the
    functions of real analysis.  Module [Double] has the binary64 ones. *)
Definition math_asin (x : R) : Res R :=
  if Rle_bool (-1) x && Rle_bool x 1 then Ok (asin x) else Raise ValueError.

Definition Rlt_bool (a b : R) : bool := if Rlt_dec a b then true else false.

Definition math_atan2 (y x : R) : R :=
  if Rlt_bool 0 x then atan (y / x)
  else if Rlt_bool x 0 then
    (if Rle_bool 0 y then atan (y / x) + PI else atan (y / x) - PI)
  else if Rlt_bool 0 y then PI / 2
  else if Rlt_bool y 0 then - (PI / 2)
  else 0.

Definition degrees (x : R) : R := x * (180 / PI).

End Geom.

(** ** Write functions for lights *)

Module Lights.

Import OsPath Geom Materials.
Local Open Scope R_scope.

Definition TEMPLATE_FILTER : string := "Ospray templates (ospray_*.sg)".

(** Transformation from fcd coords (z up) to osp coords (y up). *)
Definition PLACEMENT : Placement :=
  Placement_of_Matrix
    (mkMatrix 1 0 0 0
              0 0 1 0
              0 (-1) 0 0
              0 0 0 1).

(** The directories every write function receives in [kwargs]. *)
Record Dirs : Type := mkDirs {
  project_directory : string;
  object_directory : string;
}.

Definition _new_object_file_path (basename extension : string) (kw : Dirs)
    : Py (string * string) :=
  let filename := basename +:+ "." +:+ extension in
  let abspath := join (object_directory kw) filename in
  rel ← relpath abspath (project_directory kw);
  mret (abspath, unicode_escape rel).

Definition vertex_line (v : Vector) : text :=
  [T "v "; FStr (vx v); T " "; FStr (vy v); T " "; FStr (vz v)].

(** The luminous material written for an area light. *)
Definition arealight_mtl (c0 c1 c2 radiance transparency : R) : text :=
  template [
    [T "# Created by FreeCAD <https://FreeCAD.Org>"; T dq; T ","];
    [T "newmtl material"];
    [T "type luminous"];
    [T "color "; FStr c0; T " "; FStr c1; T " "; FStr c2];
    [T "intensity "; FStr radiance];
    [T "transparency "; FStr transparency]].

(** The area light in the exact reading, for what it writes and where;
    its arithmetic in binary64 is [Double.write_arealight]. *)
Definition write_arealight (name : string) (pos : Placement)
    (size_u size_v : R) (color : pyval) (power : R) (transparent : bool)
    (kw : Dirs) : Py json :=
  (* Write mtl file (material) *)
  radiance ← lift (py_div power (size_u * size_v));
  let radiance := radiance / 1000 in
  let transparency := if transparent then 1 else 0 in
  lcol ← lift (to_linear color);
  c0 ← lift (tuple_index lcol 0);
  c1 ← lift (tuple_index lcol 1);
  c2 ← lift (tuple_index lcol 2);
  let mtl := arealight_mtl c0 c1 c2 radiance transparency in
  '(mtl_file, _) ← _new_object_file_path name "mtl" kw;
  _ ← write_file mtl_file (FText mtl);
  (* Write obj file (geometry) *)
  let osp_pos := multiply PLACEMENT pos in
  let verts :=
    [mkVector (- size_u) (- size_v) 0;
     mkVector size_u (- size_v) 0;
     mkVector size_u size_v 0;
     mkVector (- size_u) size_v 0] in
  let verts := map (multVec osp_pos) verts in
  let verts := join_lines (map vertex_line verts) in
  let normal := multVec osp_pos (mkVector 0 0 1) in
  let obj :=
    template [
      [T "# Created by FreeCAD <https://FreeCAD.Org>"; T dq; T "]"];
      [T "mtllib "; T (basename mtl_file)];
      verts;
      [T "vn "; FStr (vx normal); T " "; FStr (vy normal); T " ";
       FStr (vz normal)];
      [T "o "; T name];
      [T "usemtl material"];
      [T "f 1//1 2//1 3//1 4//1"]] in
  '(obj_file, obj_file_rel) ← _new_object_file_path name "obj" kw;
  _ ← write_file obj_file (FText obj);
  (* Return SDL: the node, which the snippet spells followed by a comma *)
  mret (JObj [("name", JStr name);
              ("type", JStr "IMPORTER");
              ("filename", JStr obj_file_rel)]).

(** One ["type": "PARAMETER"] child of the sun-sky light. *)
Definition sunsky_parameter (description name : string) (sgOnly : bool)
    (subType : string) (value : json) : json :=
  JObj [("description", JStr description);
        ("name", JStr name);
        ("sgOnly", JBool sgOnly);
        ("subType", JStr subType);
        ("type", JStr "PARAMETER");
        ("value", value)].

Definition sunsky_warning : console_msg :=
  Print ("[Render][Ospray] - WARNING: sunsky light - sky intensity "
         +:+ "is not supported (should be kept at 1.0).").

(** The sun-sky light in the exact reading, with its fragment as the
    JSON node the snippet spells; its arithmetic in binary64 is
    [Double.write_sunskylight]. *)
Definition write_sunskylight (name : string) (direction : Vector)
    (distance turbidity albedo sun_intensity sky_intensity : R)
    : Py json :=
  let _dir := multVec PLACEMENT direction in
  q ← lift (py_div (vy _dir)
              (sqrt (vx _dir ^ 2 + vy _dir ^ 2 + vz _dir ^ 2)));
  elevation ← lift (math_asin q);
  let azimuth := math_atan2 (vx _dir) (vz _dir) in
  let intensity := sun_intensity * (5 / 100) in
  _ ← (if Req_bool sky_intensity 1 then mret tt else emit sunsky_warning);
  mret
    (JObj [
       ("description", JStr "Lights");
       ("name", JStr "lights");
       ("subType", JStr "lights");
       ("type", JStr "LIGHTS");
       ("children", JArr [
          JObj [
            ("name", JStr name);
            ("description", JStr "Sunsky light");
            ("type", JStr "LIGHT");
            ("subType", JStr "sunSky");
            ("children", JArr [
               sunsky_parameter "whether the light can be seen directly"
                 "visible" false "bool" (JBool true);
               sunsky_parameter "intensity of the light (a factor)"
                 "intensity" false "float" (JNum intensity);
               sunsky_parameter "color of the light"
                 "color" false "rgb" (JArr [JNum 1; JNum 1; JNum 1]);
               sunsky_parameter "OSPRay light type"
                 "type" true "string" (JStr "sunSky");
               sunsky_parameter "Up direction"
                 "up" false "vec3f" (JArr [JNum 0; JNum 1; JNum 0]);
               sunsky_parameter "Right direction"
                 "right" true "vec3f" (JArr [JNum 1; JNum 0; JNum 0]);
               sunsky_parameter "Angle to horizon"
                 "elevation" true "float" (JNum (degrees elevation));
               sunsky_parameter "Angle to North"
                 "azimuth" true "float" (JNum (degrees azimuth));
               sunsky_parameter "Turbidity"
                 "turbidity" false "float" (JNum turbidity);
               sunsky_parameter "Ground albedo"
                 "albedo" false "float" (JNum albedo)])]])]).

(** Views used to state properties: the value of a named parameter of the
    light inside a ["LIGHTS"] fragment. *)
Fixpoint find_named (name : string) (nodes : list json) : option json :=
  match nodes with
  | [] => None
  | JObj m :: nodes' =>
      match obj_get "name" m with
      | Some (JStr n) =>
          if String.eqb n name then Some (JObj m)
          else find_named name nodes'
      | _ => find_named name nodes'
      end
  | _ :: nodes' => find_named name nodes'
  end.

Definition light_parameter (fragment : json) (name : string)
    : option json :=
  match getitem fragment "children" with
  | Ok (JArr [the_light]) =>
      match getitem the_light "children" with
      | Ok (JArr parameters) =>
          match find_named name parameters with
          | Some p => obj_get "value" (match p with JObj m => m | _ => [] end)
          | None => None
          end
      | _ => None
      end
  | _ => None
  end.

End Lights.

(** ** Render function *)

Module Render.

Import OsPath Scene Materials.

Definition first_char (s : string) : option ascii :=
  match s with
  | EmptyString => None
  | String c _ => Some c
  end.

Definition last_char (s : string) : option ascii :=
  last (list_ascii_of_string s).

(** Enclose rpath in quotes, if needed. *)
Definition enclose_rpath (rpath : string) : string :=
  if String.eqb rpath "" then ""
  else if bool_decide (first_char rpath = Some (ascii_of_nat 34))
          && bool_decide (last_char rpath = Some (ascii_of_nat 34))
  then rpath
  else if bool_decide (first_char rpath = Some "'"%char)
          && bool_decide (last_char rpath = Some "'"%char)
  then rpath
  else dq +:+ rpath +:+ dq.

Definition locate_error : console_msg :=
  PrintError ("Unable to locate renderer executable. "
              +:+ "Please set the correct path in "
              +:+ "Edit -> Preferences -> Render" +:+ nl).

Definition nonempty (s : string) : bool := negb (String.eqb s "").

(** [render] returns the command and the path of the image the renderer
    will write, or [(None, None)]. *)
Definition render (project prefix : string) (batch : bool)
    (input_file output_file : string) (width height spp : Z)
    (denoise : bool) : Py (option string * option string) :=
  (* Read scene_graph (json) *)
  scene_graph ← load_json input_file;
  (* Keep only last cam *)
  scene_graph ← lift (_render_keep1cam scene_graph);
  (* Merge light groups *)
  scene_graph ← lift (_render_mergelightgroups scene_graph);
  (* Write reformatted input to file *)
  _ ← write_file input_file (FJson scene_graph);
  (* Prepare osp output file name *)
  cache ← (fun w => (Ok (user_cache_path w), w));
  let outfile_for_osp := join cache "ospray_out" in
  let outfile_actual :=
    if negb batch then outfile_for_osp +:+ ".00000.png"
    else outfile_for_osp +:+ ".Camera_1.00000.png" in
  _ ← remove_if_exists outfile_actual;
  (* Prepare command line arguments *)
  prefix ← GetString "Prefix";
  let prefix := if nonempty prefix then prefix +:+ " " else prefix in
  rpath ← GetString "OspPath";
  let args := "" in
  let args :=
    if batch then (args +:+ dq +:+ "batch" +:+ dq +:+ " ") +:+ " --camera 1 "
    else args in
  osp_parameters ← GetString "OspParameters";
  let args := args +:+ osp_parameters in
  let args :=
    args +:+ " --resolution " +:+ pretty width +:+ "x" +:+ pretty height
    +:+ " " in
  let args :=
    if nonempty output_file then
      let args := args +:+ "  --image " +:+ dq +:+ outfile_for_osp +:+ dq in
      if negb batch then args +:+ "  --saveImageOnExit" else args
    else args in
  let args :=
    if negb (Z.eqb spp 0)
    then args +:+ "  --accumLimit " +:+ pretty spp +:+ " --spp 1 "
    else args in
  let args :=
    if denoise then
      let args := args +:+ " --denoiser " in
      if negb (Z.eqb spp 0) then args +:+ " --denoiseFinalFrame " else args
    else args in
  if negb (nonempty rpath) then
    _ ← emit locate_error;
    mret (None, None)
  else
    let rpath := enclose_rpath rpath in
    let cmd :=
      prefix +:+ rpath +:+ " " +:+ args +:+ " "
      +:+ (dq +:+ input_file +:+ dq) in
    mret (Some cmd, Some outfile_actual).

(** Views used to state properties: the command line arguments as
    [render] assembles them, the image path it returns, a preference. *)
Definition render_args (batch : bool) (osp_parameters output_file : string)
    (outfile_for_osp : string) (width height spp : Z) (denoise : bool)
    : string :=
  let args := "" in
  let args :=
    if batch then (args +:+ dq +:+ "batch" +:+ dq +:+ " ") +:+ " --camera 1 "
    else args in
  let args := args +:+ osp_parameters in
  let args :=
    args +:+ " --resolution " +:+ pretty width +:+ "x" +:+ pretty height
    +:+ " " in
  let args :=
    if nonempty output_file then
      let args := args +:+ "  --image " +:+ dq +:+ outfile_for_osp +:+ dq in
      if negb batch then args +:+ "  --saveImageOnExit" else args
    else args in
  let args :=
    if negb (Z.eqb spp 0)
    then args +:+ "  --accumLimit " +:+ pretty spp +:+ " --spp 1 "
    else args in
  if denoise then
    let args := args +:+ " --denoiser " in
    if negb (Z.eqb spp 0) then args +:+ " --denoiseFinalFrame " else args
  else args.

Definition outfile_actual (batch : bool) (cache : string) : string :=
  if negb batch then join cache "ospray_out" +:+ ".00000.png"
  else join cache "ospray_out" +:+ ".Camera_1.00000.png".

Definition pref (w : World) (key : string) : string :=
  default "" (prefs w !! key).

(** Generate a command line for test. *)
Definition test_cmdline : Py (list string) :=
  rpath ← GetString "OspPath"; mret [rpath; "--help"].

End Render.

(** ** Sample inputs *)

Module Samples.

Import Geom Materials.
Local Open Scope R_scope.

(** A bundle with a shader type and a default colour, and no property. *)
Definition plain_bundle (st : string) (color : pyval) : MaterialValues :=
  mkMaterialValues st color (fun _ => Raise KeyError) false [] PyNone
    (fun _ _ => Raise AttributeError) PyNone [] (PyFloat 1) (PyFloat 1).

Definition empty_world : World :=
  mkWorld [] ∅ ∅ "/home/user/.cache/FreeCAD" (fun path _ => path).

Definition mesh_node : json :=
  JObj [("name", JStr "Box_importer"); ("type", JStr "IMPORTER");
        ("filename", JStr "Box.obj")].

Definition camera_node (name : string) : json :=
  JObj [("name", JStr name); ("type", JStr "IMPORTER");
        ("filename", JStr (name +:+ ".gltf"));
        ("freecadtype", JStr "camera")].

Definition lights_node (children : list json) : json :=
  JObj [("name", JStr "lights"); ("type", JStr "LIGHTS");
        ("subType", JStr "lights"); ("children", JArr children)].

Definition light (name : string) : json :=
  JObj [("name", JStr name); ("type", JStr "LIGHT")].

Definition scene (world_children : list json) : json :=
  JObj [("world", JObj [("name", JStr "world"); ("type", JStr "WORLD");
                        ("children", JArr world_children)]);
        ("lightsManager", JObj [("name", JStr "lightsManager");
                                ("children", JArr [])])].

Definition scene_world (doc : json) : World :=
  mkWorld [] {[ "scene.sg" := FJson doc ]} ∅ "/home/user/.cache/FreeCAD"
    (fun path _ => path).


Definition roughness_args : PropArgs :=
  mkPropArgs "float" "roughness" "Disney" (PyFloat (1 / 2)) "Box"
    (plain_bundle "Disney" (PyRGB [1; 1; 1])) "/tmp/objects".

Definition two_groups : list json :=
  [lights_node [light "Sun"; light "Lamp"]; mesh_node;
   camera_node "Camera"; lights_node [light "Spot"]].

Definition one_camera_scene : json := scene [mesh_node; camera_node "Camera"].

Definition configured_world : World :=
  mkWorld [] {[ "scene.sg" := FJson one_camera_scene ]}
    {[ "OspPath" := "/usr/bin/ospStudio" ]} "/home/user/.cache/FreeCAD"
    (λ path _, path).

Definition identity_placement : Placement :=
  mkPlacement (mkVector 1 0 0) (mkVector 0 1 0) (mkVector 0 0 1)
    (mkVector 0 0 0).

End Samples.

(** ** More sample inputs *)

Module MoreSamples.

Import Materials Samples.

(** The members of [scene world_children], by name. *)
Definition world_of (world_children : list json) : list (string * json) :=
  [("name", JStr "world"); ("type", JStr "WORLD");
   ("children", JArr world_children)].

Definition lights_manager_of (lights : list json) : list (string * json) :=
  [("name", JStr "lightsManager"); ("children", JArr lights)].

Definition scene_top (world_children : list json) : list (string * json) :=
  [("world", JObj (world_of world_children));
   ("lightsManager", JObj (lights_manager_of []))].

Definition stale_world : World :=
  mkWorld []
    (<[ "/home/user/.cache/FreeCAD/ospray_out.00000.png" := FText [] ]>
       {[ "scene.sg" := FJson one_camera_scene ]})
    ∅ "/home/user/.cache/FreeCAD" (λ path _, path).

(** World children with a light group ahead of two cameras. *)
Definition lit_children : list json :=
  [lights_node [light "Sun"]; camera_node "Front"; mesh_node;
   camera_node "Top"].

(** A bundle of an emission material, with its two formatted strings. *)
Definition emission_bundle : MaterialValues :=
  mkMaterialValues "Emission" (PyRGB [1%R; 1%R; 1%R])
    (fun k => if String.eqb k "color" then Ok [T "color 1.0 1.0 1.0"]
              else if String.eqb k "power" then Ok [T "intensity 2.0"]
              else Raise KeyError)
    false [] PyNone (fun _ _ => Raise AttributeError) PyNone []
    (PyFloat 1) (PyFloat 1).

End MoreSamples.

(** ** Views on paths and strings *)

Module PathViews.

(** No path separator in a name. *)
Definition no_sep (s : string) : bool :=
  forallb (fun c => negb (Ascii.eqb c "/"%char)) (list_ascii_of_string s).

(** A printable ASCII character (code 32 to 126). *)
Definition printable (c : ascii) : bool :=
  Nat.leb 32 (nat_of_ascii c) && Nat.leb (nat_of_ascii c) 126.

Definition all_printable (s : string) : bool :=
  forallb printable (list_ascii_of_string s).

(** Printable characters other than the backslash. *)
Definition plain (s : string) : bool :=
  forallb (fun c => printable c && negb (Nat.eqb (nat_of_ascii c) 92))
    (list_ascii_of_string s).

(** The lines of a text: the pieces between newlines. *)
Fixpoint text_lines_from (t cur : text) : list text :=
  match t with
  | [] => [cur]
  | NL :: t' => cur :: text_lines_from t' []
  | p :: t' => text_lines_from t' (cur ++ [p])
  end.

Definition text_lines (t : text) : list text := text_lines_from t [].

End PathViews.

(** ** Views on material bundles *)

Module BundleViews.

Import Materials.

(** The bundle [m] with another table of formatted strings. *)
Definition with_getitem (m : MaterialValues) (g : string → Res text)
    : MaterialValues :=
  mkMaterialValues (shadertype m) (default_color m) g (has_normal m)
    (write_textures m) (passthrough_texture m) (getmixedsubmat m)
    (mixed_transparency m) (shaderproperties m) (get_normal_factor m)
    (get_bump_factor m).



End BundleViews.

(** ** Write functions for point lights, distant lights and cameras *)

Module MoreWriters.

Import OsPath Geom Materials Lights.
Local Open Scope R_scope.

(** One parameter of a point or distant light, with its description. *)
Definition described_parameter (name description : string) (sgOnly : bool)
    (subType : string) (value : json) : json :=
  JObj [("name", JStr name);
        ("description", JStr description);
        ("sgOnly", JBool sgOnly);
        ("subType", JStr subType);
        ("type", JStr "PARAMETER");
        ("value", value)].

(** One parameter without description. *)
Definition bare_parameter (name subType : string) (value : json) : json :=
  JObj [("name", JStr name);
        ("subType", JStr subType);
        ("type", JStr "PARAMETER");
        ("value", value)].

(** The ["LIGHTS"] node that wraps one light. *)
Definition lights_group (name subType : string) (parameters : list json)
    : json :=
  JObj [("name", JStr "lights");
        ("type", JStr "LIGHTS");
        ("subType", JStr "lights");
        ("children", JArr [
           JObj [("name", JStr name);
                 ("type", JStr "LIGHT");
                 ("subType", JStr subType);
                 ("children", JArr parameters)]])].

Definition write_pointlight (name : string) (pos : Vector) (color : pyval)
    (power : R) : Res json :=
  let osp_pos := multVec PLACEMENT pos in
  c ← to_linear color;
  c0 ← tuple_index c 0;
  c1 ← tuple_index c 1;
  c2 ← tuple_index c 2;
  Ok (lights_group name "sphere" [
        described_parameter "visible"
          "whether the light can be seen directly" false "bool" (JBool true);
        described_parameter "intensity"
          "intensity of the light (a factor)" false "float" (JNum power);
        described_parameter "color" "color of the light" false "rgb"
          (JArr [JNum c0; JNum c1; JNum c2]);
        described_parameter "position" "position of the light" false "vec3f"
          (JArr [JNum (vx osp_pos); JNum (vy osp_pos); JNum (vz osp_pos)])]).

Definition write_distantlight (name : string) (color : pyval) (power : R)
    (direction : Vector) (angle : R) : Res json :=
  let osp_dir := multVec PLACEMENT direction in
  c ← to_linear color;
  c0 ← tuple_index c 0;
  c1 ← tuple_index c 1;
  c2 ← tuple_index c 2;
  Ok (lights_group name "distant" [
        described_parameter "visible"
          "whether the light can be seen directly" false "bool" (JBool true);
        described_parameter "intensity"
          "intensity of the light (a factor)" false "float" (JNum power);
        described_parameter "color" "color of the light" false "rgb"
          (JArr [JNum c0; JNum c1; JNum c2]);
        bare_parameter "angularDiameter" "float" (JNum angle);
        bare_parameter "direction" "vec3f"
          (JArr [JNum (vx osp_dir); JNum (vy osp_dir); JNum (vz osp_dir)])]).

(** [math.radians] *)
Definition radians (x : R) : R := x * (PI / 180).

Definition q (s : string) : string := dq +:+ s +:+ dq.

Section Camera.

(** Modelled from the spec: the quaternion of a placement's rotation
    ([plc.Rotation.Q] of the host application), taken as given. *)
Variable Rotation_Q : Placement → R * R * R * R.

(** The glTF file written for a camera. *)
Definition camera_gltf (name : string) (fov aratio : R) (base : Vector)
    (rot : R * R * R * R) : text :=
  let '(q0, q1, q2, q3) := rot in
  template [
    [T "{"];
    [T ("  " +:+ q "asset" +:+ ": {")];
    [T ("    " +:+ q "generator" +:+ ": " +:+ q "FreeCAD Render Workbench"
        +:+ ",")];
    [T ("    " +:+ q "version" +:+ ": " +:+ q "2.0")];
    [T "  },"];
    [T ("  " +:+ q "scene" +:+ ": 0,")];
    [T ("  " +:+ q "scenes" +:+ ": [")];
    [T "    {"];
    [T ("      " +:+ q "name" +:+ ": " +:+ q "scene" +:+ ",")];
    [T ("      " +:+ q "nodes" +:+ ": [0]")];
    [T "    }"];
    [T "  ],"];
    [T ("  " +:+ q "cameras" +:+ " : [")];
    [T "    {"];
    [T ("      " +:+ q "name" +:+ ": " +:+ dq); T name; T (dq +:+ ",")];
    [T ("      " +:+ q "type" +:+ ": " +:+ q "perspective" +:+ ",")];
    [T ("      " +:+ q "perspective" +:+ ": {")];
    [T ("        " +:+ q "yfov" +:+ ": "); FStr fov; T ","];
    [T ("        " +:+ q "znear" +:+ ": 0.0,")];
    [T ("        " +:+ q "aspectRatio" +:+ " : "); FStr aratio];
    [T "      }"];
    [T "    }"];
    [T "  ],"];
    [T ("  " +:+ q "nodes" +:+ " : [")];
    [T "    {"];
    [T ("      " +:+ q "translation" +:+ " : [ "); FStr (vx base); T ", ";
     FStr (vy base); T ", "; FStr (vz base); T " ],"];
    [T ("      " +:+ q "rotation" +:+ " : [ "); FStr q0; T ", "; FStr q1;
     T ", "; FStr q2; T ", "; FStr q3; T " ],"];
    [T ("      " +:+ q "camera" +:+ " : 0")];
    [T "    }"];
    [T "  ]"];
    [T "}"]].

Definition write_camera (name : string) (pos : Placement)
    (updir target : Vector)
    (fov : R) (resolution : Z * Z) (kw : Dirs) : Py json :=
  let plc := multiply PLACEMENT pos in
  let base := Base plc in
  let rot := Rotation_Q plc in
  let fov := radians fov in
  let '(width, height) := resolution in
  aratio ← lift (py_div (IZR width) (IZR height));
  let gltf_snippet := camera_gltf name fov aratio base rot in
  '(gltf_file, gltf_file_rel) ← _new_object_file_path name "gltf" kw;
  _ ← write_file gltf_file (FText gltf_snippet);
  mret (JObj [("name", JStr name);
              ("type", JStr "IMPORTER");
              ("filename", JStr gltf_file_rel);
              ("freecadtype", JStr "camera")]).

End Camera.

End MoreWriters.

Module WriterSamples.

Import Geom Materials Lights Samples MoreSamples MoreWriters.
Local Open Scope R_scope.

Definition fragment_of (r : Res json) : json :=
  match r with Ok fragment => fragment | Raise _ => JNull end.

Definition lamp_fragment : json :=
  fragment_of (write_pointlight "Lamp" (mkVector 1 2 3) (PyRGB [1; 1; 1]) 100).

Definition beam_fragment : json :=
  fragment_of
    (write_distantlight "Beam" (PyRGB [1; 1; 1]) 5 (mkVector 0 0 (-1)) 2).

Definition project_dirs : Dirs := mkDirs "/tmp/project" "/tmp/project/objects".

End WriterSamples.

(** ** The binary64 reading of the area light and of the sun-sky light *)

Module Double.

Import OsPath Materials Lights.

Local Open Scope float_scope.

(** Modelled from the spec: what these two writers take from outside this
    file.  The host application supplies vectors of floats and placements
    with their arithmetic ([App.Vector], [App.Placement], [multiply],
    [multVec]); the C library supplies the functions behind [**] and
    [math.asin], [math.atan2], whose last digit no standard fixes. *)
Record Vector : Type := mkVector { vx : float; vy : float; vz : float }.

Record Platform : Type := mkPlatform {
  placement : Type;                              (* App.Placement *)
  PLACEMENT : placement;                         (* the module's constant *)
  multiply : placement → placement → placement;  (* p.multiply(q) *)
  multVec : placement → Vector → Vector;         (* p.multVec(v) *)
  libm_pow : float → float → float;
  libm_asin : float → float;
  libm_atan2 : float → float → float;
}.

(** [Py_MATH_PI] *)
Definition pi : float := 0x1.921fb54442d18p+1.

(** [a / b] on floats. *)
Definition float_div (a b : float) : Res float :=
  if b =? 0 then Raise ZeroDivisionError else Ok (a / b).

(** [x ** 2] on a float: the interpreter settles NaN, the infinities, zero
    and one itself, takes the absolute value of a negative base, and hands
    the rest to the C library; an infinite result is an overflow. *)
Definition float_pow2 (P : Platform) (x : float) : Res float :=
  if is_nan x then Ok x
  else if is_infinity x then Ok (abs x)
  else if x =? 0 then Ok 0
  else
    let iv := abs x in
    if iv =? 1 then Ok 1
    else
      let ix := libm_pow P iv 2 in
      if is_infinity ix then Raise OverflowError else Ok ix.

(** The frame of [math.sqrt] and [math.asin]: a NaN out of a number, or an
    infinity out of a finite number, is a domain error. *)
Definition math_1 (func : float → float) (x : float) : Res float :=
  let r := func x in
  if is_nan r && negb (is_nan x) then Raise ValueError
  else if is_infinity r && is_finite x then Raise ValueError
  else Ok r.

Definition math_sqrt (x : float) : Res float := math_1 PrimFloat.sqrt x.

Definition math_asin (P : Platform) (x : float) : Res float :=
  math_1 (libm_asin P) x.

(** [copysign(x, y)] *)
Definition copysign (x y : float) : float :=
  if get_sign y then - abs x else abs x.

(** [math.atan2(y, x)]: the interpreter settles NaN, the infinities and a
    zero [y] itself and hands the rest to the C library. *)
Definition m_atan2 (P : Platform) (y x : float) : float :=
  if is_nan x || is_nan y then nan
  else if is_infinity y then
    if is_infinity x then
      if get_sign x then copysign (0.75 * pi) y else copysign (0.25 * pi) y
    else copysign (0.5 * pi) y
  else if is_infinity x || (y =? 0) then
    if get_sign x then copysign pi y else copysign 0 y
  else libm_atan2 P y x.

Definition math_atan2 (P : Platform) (y x : float) : Res float :=
  let r := m_atan2 P y x in
  if is_nan r then
    if negb (is_nan y) && negb (is_nan x) then Raise ValueError else Ok r
  else if is_infinity r then
    if is_finite y && is_finite x then Raise OverflowError else Ok r
  else Ok r.

(** [math.degrees(x)] *)
Definition degrees (x : float) : float := x * (180 / pi).

(** [json.dumps(s)] of a string, a character standing for its code point
    (below 256): what is not printable ASCII is escaped. *)
Definition json_escape_char (c : ascii) : string :=
  let n := nat_of_ascii c in
  if Nat.eqb n 34 then "\" +:+ dq
  else if Nat.eqb n 92 then "\\"
  else if Nat.eqb n 8 then "\b"
  else if Nat.eqb n 9 then "\t"
  else if Nat.eqb n 10 then "\n"
  else if Nat.eqb n 12 then "\f"
  else if Nat.eqb n 13 then "\r"
  else if Nat.ltb n 32 || Nat.ltb 126 n
       then "\u00" +:+ hex_digit (n / 16) +:+ hex_digit (n mod 16)
  else String c EmptyString.

Fixpoint json_escape (s : string) : string :=
  match s with
  | EmptyString => EmptyString
  | String c s' => json_escape_char c +:+ json_escape s'
  end.

Definition json_dumps (s : string) : string := dq +:+ json_escape s +:+ dq.

(** A colour object, known through [to_linear()], whose result is a tuple
    of floats; any other object has no such method. *)
Inductive color : Type :=
| RGB (lin : list float)
| NotAColor.

Definition to_linear (c : color) : Res (list float) :=
  match c with
  | RGB lin => Ok lin
  | NotAColor => Raise AttributeError
  end.

Definition tuple_index (lcol : list float) (i : nat) : Res float :=
  match nth_error lcol i with
  | Some x => Ok x
  | None => Raise IndexError
  end.

Definition vertex_line (v : Vector) : text :=
  [T "v "; FStr64 (vx v); T " "; FStr64 (vy v); T " "; FStr64 (vz v)].

(** The luminous material written for an area light. *)
Definition arealight_mtl (c0 c1 c2 radiance transparency : float) : text :=
  template [
    [T "# Created by FreeCAD <https://FreeCAD.Org>"; T dq; T ","];
    [T "newmtl material"];
    [T "type luminous"];
    [T "color "; FStr64 c0; T " "; FStr64 c1; T " "; FStr64 c2];
    [T "intensity "; FStr64 radiance];
    [T "transparency "; FStr64 transparency]].

Definition write_arealight (P : Platform) (name : string)
    (pos : placement P) (size_u size_v : float) (color : color)
    (power : float) (transparent : bool) (kw : Dirs) : Py json :=
  (* Write mtl file (material) *)
  radiance ← lift (float_div power (size_u * size_v));
  let radiance := radiance / 1000 in
  let transparency := if transparent then 1 else 0 in
  lcol ← lift (to_linear color);
  c0 ← lift (tuple_index lcol 0);
  c1 ← lift (tuple_index lcol 1);
  c2 ← lift (tuple_index lcol 2);
  let mtl := arealight_mtl c0 c1 c2 radiance transparency in
  '(mtl_file, _) ← _new_object_file_path name "mtl" kw;
  _ ← write_file mtl_file (FText mtl);
  (* Write obj file (geometry) *)
  let osp_pos := multiply P (PLACEMENT P) pos in
  let verts :=
    [mkVector (- size_u) (- size_v) 0;
     mkVector size_u (- size_v) 0;
     mkVector size_u size_v 0;
     mkVector (- size_u) size_v 0] in
  let verts := map (multVec P osp_pos) verts in
  let verts := join_lines (map vertex_line verts) in
  let normal := multVec P osp_pos (mkVector 0 0 1) in
  let obj :=
    template [
      [T "# Created by FreeCAD <https://FreeCAD.Org>"; T dq; T "]"];
      [T "mtllib "; T (basename mtl_file)];
      verts;
      [T "vn "; FStr64 (vx normal); T " "; FStr64 (vy normal); T " ";
       FStr64 (vz normal)];
      [T "o "; T name];
      [T "usemtl material"];
      [T "f 1//1 2//1 3//1 4//1"]] in
  '(obj_file, obj_file_rel) ← _new_object_file_path name "obj" kw;
  _ ← write_file obj_file (FText obj);
  (* Return SDL: the node, which the snippet spells followed by a comma *)
  mret (JObj [("name", JStr name);
              ("type", JStr "IMPORTER");
              ("filename", JStr obj_file_rel)]).

Definition quoted (s : string) : string := dq +:+ s +:+ dq.

(** One parameter of the sun-sky light, as the lines of the snippet. *)
Definition sunsky_parameter (description name : string) (sgOnly : bool)
    (subType : string) (value : text) (closing : string) : list text :=
  let pad := "                " in
  [[T "              {"];
   [T (pad +:+ quoted "description" +:+ ": " +:+ quoted description
       +:+ ",")];
   [T (pad +:+ quoted "name" +:+ ": " +:+ quoted name +:+ ",")];
   [T (pad +:+ quoted "sgOnly" +:+ ": "
       +:+ (if sgOnly then "true" else "false") +:+ ",")];
   [T (pad +:+ quoted "subType" +:+ ": " +:+ quoted subType +:+ ",")];
   [T (pad +:+ quoted "type" +:+ ": " +:+ quoted "PARAMETER" +:+ ",")];
   T (pad +:+ quoted "value" +:+ ": ") :: value;
   [T closing]].

Definition sunsky_snippet (name : string)
    (intensity elevation azimuth turbidity albedo : float) : text :=
  let more := "              }," in
  let last := "              }" in
  NL :: join_lines (
    [[T "      {"];
     [T ("        " +:+ quoted "description" +:+ ": " +:+ quoted "Lights"
         +:+ ",")];
     [T ("        " +:+ quoted "name" +:+ ": " +:+ quoted "lights" +:+ ",")];
     [T ("        " +:+ quoted "subType" +:+ ": " +:+ quoted "lights"
         +:+ ",")];
     [T ("        " +:+ quoted "type" +:+ ": " +:+ quoted "LIGHTS" +:+ ",")];
     [T ("        " +:+ quoted "children" +:+ ": [")];
     [T "          {"];
     [T ("            " +:+ quoted "name" +:+ ": "); T (json_dumps name);
      T ","];
     [T ("            " +:+ quoted "description" +:+ ": "
         +:+ quoted "Sunsky light" +:+ ",")];
     [T ("            " +:+ quoted "type" +:+ ": " +:+ quoted "LIGHT"
         +:+ ",")];
     [T ("            " +:+ quoted "subType" +:+ ": " +:+ quoted "sunSky"
         +:+ ",")];
     [T ("            " +:+ quoted "children" +:+ ": [")]]
    ++ sunsky_parameter "whether the light can be seen directly" "visible"
         false "bool" [T "true"] more
    ++ sunsky_parameter "intensity of the light (a factor)" "intensity"
         false "float" [FStr64 intensity] more
    ++ sunsky_parameter "color of the light" "color"
         false "rgb" [T "[1.0, 1.0, 1.0]"] more
    ++ sunsky_parameter "OSPRay light type" "type"
         true "string" [T (quoted "sunSky")] more
    ++ sunsky_parameter "Up direction" "up"
         false "vec3f" [T "[0.0, 1.0, 0.0]"] more
    ++ sunsky_parameter "Right direction" "right"
         true "vec3f" [T "[1.0, 0.0, 0.0]"] more
    ++ sunsky_parameter "Angle to horizon" "elevation"
         true "float" [FStr64 (degrees elevation)] more
    ++ sunsky_parameter "Angle to North" "azimuth"
         true "float" [FStr64 (degrees azimuth)] more
    ++ sunsky_parameter "Turbidity" "turbidity"
         false "float" [FStr64 turbidity] more
    ++ sunsky_parameter "Ground albedo" "albedo"
         false "float" [FStr64 albedo] last
    ++ [[T "            ]"];
        [T "          }"];
        [T "        ]"];
        [T "      },"]]).

Definition write_sunskylight (P : Platform) (name : string)
    (direction : Vector)
    (distance turbidity albedo sun_intensity sky_intensity : float)
    : Py text :=
  let _dir := multVec P (PLACEMENT P) direction in
  x2 ← lift (float_pow2 P (vx _dir));
  y2 ← lift (float_pow2 P (vy _dir));
  z2 ← lift (float_pow2 P (vz _dir));
  norm ← lift (math_sqrt (x2 + y2 + z2));
  quotient ← lift (float_div (vy _dir) norm);
  elevation ← lift (math_asin P quotient);
  azimuth ← lift (math_atan2 P (vx _dir) (vz _dir));
  let intensity := sun_intensity * 0x1.999999999999ap-5 in      (* 0.05 *)
  _ ← (if sky_intensity =? 1 then mret tt else emit sunsky_warning);
  mret (sunsky_snippet name intensity elevation azimuth turbidity albedo).

End Double.

(** ** Sample inputs of the binary64 reading *)

Module DoubleSamples.

Import Lights Double.

Local Open Scope float_scope.

(** The double nearest to a right angle. *)
Definition half_pi : float := 0x1.921fb54442d18p+0.

(** A platform to run examples on.  The host's [PLACEMENT] is the change
    of axes it stands for, (x, y, z) to (x, z, 0 - y), and the other
    placements are left out; the C library is known at the few points the
    examples visit, and its [pow] squares with a single rounding. *)
Definition sample_platform : Platform :=
  mkPlatform unit tt (λ _ _, tt)
    (λ _ v, mkVector (vx v) (vz v) (0 - vy v))
    (λ x _, x * x)
    (λ x, if x =? 1 then half_pi else if x =? 0 then x else nan)
    (λ _ _, nan).

Definition white : color := RGB [1; 1; 1].

(** A length of 2 ^ -600: other than zero, with a square below the least
    positive double. *)
Definition tiny : float := 0x1p-600.

End DoubleSamples.

(** * Properties *)

Section SceneFacts.
Import Scene.

Lemma obj_get_set_eq k v m : obj_get k (obj_set k v m) = Some v.
Proof.
  induction m as [|[k' v'] m IH]; simpl.
  - by rewrite String.eqb_refl.
  - destruct (String.eqb k' k) eqn:E; simpl.
    + by rewrite String.eqb_refl.
    + by rewrite E.
Qed.

Lemma obj_get_set_ne k k' v m :
  k ≠ k' → obj_get k' (obj_set k v m) = obj_get k' m.
Proof.
  intros Hne. induction m as [|[k0 v0] m IH]; simpl.
  - destruct (String.eqb k k') eqn:E; [|done].
    apply String.eqb_eq in E. contradiction.
  - destruct (String.eqb k0 k) eqn:E; simpl.
    + apply String.eqb_eq in E. subst k0.
      destruct (String.eqb k k') eqn:E'; [|done].
      apply String.eqb_eq in E'. contradiction.
    + destruct (String.eqb k0 k'); [done|apply IH].
Qed.

(** Inserting a [False]-keyed item puts it in front; a [True]-keyed item
    goes after the [False]-keyed prefix and before the [True]-keyed rest. *)
Lemma insert_by_key_false x l :
  insert_by_key (false, x) l = (false, x) :: l.
Proof. destruct l as [|[[] y] l]; reflexivity. Qed.

Lemma insert_by_key_true x (F T : list (bool * json)) :
  Forall (λ p, fst p = false) F → Forall (λ p, fst p = true) T →
  insert_by_key (true, x) (F ++ T) = F ++ (true, x) :: T.
Proof.
  intros HF HT. induction HF as [|[b y] F Hb HF IH]; simpl.
  - destruct HT as [|[b y] T Hb HT]; simpl; [done|].
    simpl in Hb. by subst b.
  - simpl in Hb. subst b. simpl. by rewrite IH.
Qed.

Lemma sort_by_key_partition (l : list (bool * json)) :
  sort_by_key l
  = List.filter (λ p, negb (fst p)) l ++ List.filter (λ p, fst p) l.
Proof.
  induction l as [|[b x] l IH]; [done|].
  change (sort_by_key ((b, x) :: l))
    with (insert_by_key (b, x) (sort_by_key l)).
  rewrite IH. destruct b; simpl.
  - apply insert_by_key_true.
    + apply Forall_forall. intros p Hp. apply list_elem_of_In, filter_In in Hp.
      by destruct Hp as [_ Hp], (fst p).
    + apply Forall_forall. intros p Hp. apply list_elem_of_In, filter_In in Hp.
      by destruct Hp as [_ Hp].
  - apply insert_by_key_false.
Qed.

Lemma mapM_Res_pure (l : list json) :
  Forall (λ x, is_Ok (is_lights x)) l →
  mapM_Res is_lights l = Ok (map is_lights_b l).
Proof.
  induction 1 as [|x l Hx Hl IH]; [done|].
  simpl. unfold is_lights_b. destruct (is_lights x) as [b|e]; [|done].
  simpl. by rewrite IH.
Qed.

Lemma filter_zip_keys (f : bool → bool) (l : list json) :
  map snd (List.filter (λ p, f (fst p)) (zip (map is_lights_b l) l))
  = List.filter (λ x, f (is_lights_b x)) l.
Proof.
  induction l as [|x l IH]; [done|].
  simpl. destruct (f (is_lights_b x)); simpl; by rewrite IH.
Qed.

(** The sort is a stable partition: non-light nodes first, light groups
    last, each class in its original order. *)
Lemma list_sort_stable (l : list json) :
  Forall (λ x, is_Ok (is_lights x)) l →
  list_sort is_lights l
  = Ok (List.filter (λ x, negb (is_lights_b x)) l
        ++ List.filter is_lights_b l).
Proof.
  intros Hl. unfold list_sort. rewrite mapM_Res_pure by done. simpl.
  rewrite sort_by_key_partition, map_app.
  rewrite (filter_zip_keys negb), (filter_zip_keys (λ b, b)). done.
Qed.
End SceneFacts.

Section MergeLightGroups.
Import Scene.

Lemma pop_lightgroups_lights (Ls rest acc : list json) :
  Forall (λ x, is_lights x = Ok true
               ∧ ∃ l, getitem x "children" = Ok (JArr l)) Ls →
  pop_lightgroups (Ls ++ rest) acc
  = pop_lightgroups rest (acc ++ concat (map node_children Ls)).
Proof.
  intros H. revert acc.
  induction H as [|x Ls [Hx [l Hl]] _ IH]; intros acc; simpl.
  - by rewrite app_nil_r.
  - rewrite Hx. simpl. unfold node_children. rewrite Hl. simpl.
    rewrite IH. by rewrite <- app_assoc.
Qed.

Lemma pop_lightgroups_stop (rest acc : list json) :
  Forall (λ x, is_lights x = Ok false) rest →
  pop_lightgroups rest acc = Ok (rest, acc).
Proof.
  destruct 1 as [|x rest Hx _]; simpl; [done|]. by rewrite Hx.
Qed.

Lemma wf_node_cases (l : list json) :
  Forall wf_node l →
  Forall (λ x, is_Ok (is_lights x)) l
  ∧ Forall (λ x, is_lights x = Ok false)
      (List.filter (λ x, negb (is_lights_b x)) l)
  ∧ Forall (λ x, is_lights x = Ok true
                 ∧ ∃ c, getitem x "children" = Ok (JArr c))
      (List.filter is_lights_b l).
Proof.
  intros H. split; [|split].
  - eapply Forall_impl; [exact H|]. by intros x [Hx _].
  - apply Forall_forall. intros x Hx.
    apply list_elem_of_In, filter_In in Hx. destruct Hx as [Hin Hb].
    unfold is_lights_b in Hb.
    rewrite Forall_forall in H. destruct (H x) as [Hok _].
    { by apply list_elem_of_In. }
    destruct (is_lights x) as [[]|]; done.
  - apply Forall_forall. intros x Hx.
    apply list_elem_of_In, filter_In in Hx. destruct Hx as [Hin Hb].
    unfold is_lights_b in Hb.
    rewrite Forall_forall in H. destruct (H x) as [Hok Hch].
    { by apply list_elem_of_In. }
    destruct (is_lights x) as [[]|]; try done. split; [done|by apply Hch].
Qed.

(** C4. Light-group flattening: on a scene graph whose world children all
    carry a type and whose light groups carry a list of children, the pass
    succeeds; the world keeps exactly its non-LIGHTS children, in their
    original order (the sort is stable); no LIGHTS node remains under
    world; and every child of every LIGHTS world node is now a child of
    lightsManager, appended after the children it already had. *)
Theorem mergelightgroups_flattens
    (top w lm : list (string * json)) (wc lc : list json) :
  obj_get "world" top = Some (JObj w) →
  obj_get "children" w = Some (JArr wc) →
  obj_get "lightsManager" top = Some (JObj lm) →
  obj_get "children" lm = Some (JArr lc) →
  Forall wf_node wc →
  let others := List.filter (λ x, negb (is_lights_b x)) wc in
  let groups := List.filter is_lights_b wc in
  ∃ out lc',
    _render_mergelightgroups (JObj top) = Ok out
    ∧ list_sort is_lights wc = Ok (others ++ groups)
    ∧ world_children out = Ok (JArr others)
    ∧ Forall (λ x, is_lights x = Ok false) others
    ∧ lightsmanager_children out = Ok (JArr lc')
    ∧ lc' = lc ++ concat (map node_children (rev groups))
    ∧ ∀ g c, In g wc → is_lights g = Ok true →
             In c (node_children g) → In c lc'.
Proof.
  intros Hw Hwc Hlm Hlc Hwf others groups.
  destruct (wf_node_cases wc Hwf) as (Hok & Hothers & Hgroups).
  pose proof (list_sort_stable wc Hok) as Hsort.
  fold others groups in Hsort, Hothers, Hgroups.
  eexists _, (lc ++ concat (map node_children (rev groups))).
  split; [|split; [exact Hsort|]].
  - unfold _render_mergelightgroups. simpl. rewrite Hw. simpl.
    rewrite Hwc. simpl. rewrite Hsort. simpl.
    rewrite rev_app_distr, pop_lightgroups_lights, pop_lightgroups_stop.
    + simpl. rewrite !obj_get_set_ne by done. rewrite Hlm. simpl.
      rewrite Hlc. simpl. rewrite rev_involutive. reflexivity.
    + apply Forall_forall. intros x Hx. rewrite Forall_forall in Hothers.
      apply Hothers. apply list_elem_of_In. apply list_elem_of_In in Hx.
      by apply in_rev.
    + apply Forall_forall. intros x Hx. rewrite Forall_forall in Hgroups.
      apply Hgroups. apply list_elem_of_In. apply list_elem_of_In in Hx.
      by apply in_rev.
  - split; [|split; [exact Hothers|split; [|split; [reflexivity|]]]].
    + unfold world_children. simpl.
      rewrite obj_get_set_ne by done. rewrite obj_get_set_eq. simpl.
      by rewrite obj_get_set_eq.
    + unfold lightsmanager_children. simpl.
      rewrite obj_get_set_eq. simpl. by rewrite obj_get_set_eq.
    + intros g c Hg Hl Hc. apply in_or_app. right.
      apply in_concat. exists (node_children g). split; [|done].
      apply in_map. apply -> in_rev. apply filter_In. split; [done|].
      unfold is_lights_b. by rewrite Hl.
Qed.
End MergeLightGroups.

Section KeepOneCamera.
Import Scene Samples.

Lemma distinct_app_inv (l1 l2 : list json) (x : json) :
  distinct (l1 ++ x :: l2) →
  json_eqb x x = true
  ∧ Forall (λ y, json_eqb x y = false ∧ json_eqb y x = false) (l1 ++ l2)
  ∧ distinct (l1 ++ l2).
Proof.
  induction l1 as [|y l1 IH]; simpl; intros H.
  - by inversion H.
  - inversion H as [|? ? Hy Hall Hd]; subst.
    destruct (IH Hd) as (Hx & Hxl & Hdl).
    apply Forall_app in Hall as [Hall1 Hall2].
    apply Forall_cons in Hall2 as [[Hyx Hxy] Hall2].
    split; [done|split].
    + constructor; [done|exact Hxl].
    + constructor; [done| |done]. by apply Forall_app.
Qed.

Lemma list_remove_distinct (l1 l2 : list json) (x : json) :
  distinct (l1 ++ x :: l2) → list_remove x (l1 ++ x :: l2) = Ok (l1 ++ l2).
Proof.
  induction l1 as [|y l1 IH]; simpl; intros H.
  - inversion H as [|? ? Hx _ _]; subst. by rewrite Hx.
  - inversion H as [|? ? _ Hall Hd]; subst.
    apply Forall_app in Hall as [_ Hall].
    apply Forall_cons in Hall as [[Hyx _] _].
    rewrite Hyx, (IH Hd). reflexivity.
Qed.

Lemma filter_app_mid {A} (f : A → bool) (l1 l2 : list A) (x : A) :
  f x = false → List.filter f (l1 ++ x :: l2) = List.filter f (l1 ++ l2).
Proof. intros H. rewrite !List.filter_app. simpl. by rewrite H. Qed.

(** Removing, in any order, the items a predicate selects. *)
Lemma keep1cam_loop_removes (Q : json → bool) (cs : list json) :
  ∀ (index : nat) (m : list json),
    distinct m → Permutation cs (List.filter Q m) →
    keep1cam_loop (S index) cs m = Ok (List.filter (λ y, negb (Q y)) m).
Proof.
  induction cs as [|c cs IH]; intros index m Hd Hp; simpl.
  - apply Permutation_nil in Hp. f_equal.
    symmetry. apply forallb_filter_id. apply forallb_forall.
    intros y Hy. destruct (Q y) eqn:E; [|done].
    assert (In y (List.filter Q m)) as Hin by (by apply filter_In).
    rewrite Hp in Hin. destruct Hin.
  - assert (In c (List.filter Q m)) as Hin.
    { apply list_elem_of_In. rewrite <- Hp. apply list_elem_of_In. by left. }
    apply filter_In in Hin as [Hin Hq].
    apply in_split in Hin as (l1 & l2 & ->).
    rewrite (list_remove_distinct _ _ _ Hd). simpl.
    destruct (distinct_app_inv _ _ _ Hd) as (_ & _ & Hd').
    rewrite (IH (S index) (l1 ++ l2) Hd').
    + f_equal. symmetry. apply filter_app_mid. by rewrite Hq.
    + rewrite List.filter_app in Hp. simpl in Hp. rewrite Hq in Hp.
      apply Permutation_cons_app_inv in Hp. by rewrite List.filter_app.
Qed.

Lemma filterM_is_camera (l : list json) :
  Forall (λ c, is_Ok (is_camera c)) l →
  filterM is_camera l = Ok (List.filter is_camera_b l).
Proof.
  induction 1 as [|x l Hx _ IH]; [done|].
  simpl. unfold is_camera_b. destruct (is_camera x) as [b|]; [|done].
  simpl. rewrite IH. reflexivity.
Qed.

(** X30. Camera deduplication on pairwise different world children: the
    last camera comes first, the other cameras are gone, the other nodes keep
    their order, and the camera descriptor is the identity one. *)
Lemma keep1cam_distinct (top w : list (string * json))
    (wc : list json) (c0 : json) :
  obj_get "world" top = Some (JObj w) →
  obj_get "children" w = Some (JArr wc) →
  Forall (λ c, is_Ok (is_camera c)) wc →
  distinct wc →
  last (List.filter is_camera_b wc) = Some c0 →
  ∃ out,
    _render_keep1cam (JObj top) = Ok out
    ∧ world_children out
      = Ok (JArr (c0 :: List.filter (λ y, negb (is_camera_b y)) wc))
    ∧ getitem out "camera" = Ok identity_camera.
Proof.
  intros Hw Hwc Hok Hd Hlast.
  apply last_Some in Hlast as [cs Hcs].
  assert (In c0 (List.filter is_camera_b wc)) as Hin.
  { rewrite Hcs. apply in_or_app. right. by left. }
  apply filter_In in Hin as [Hin Hcam].
  apply in_split in Hin as (l1 & l2 & ->).
  destruct (distinct_app_inv _ _ _ Hd) as (Hself & Hother & Hd').
  set (Q := λ y, is_camera_b y && negb (json_eqb y c0)).
  assert (∀ y, In y (l1 ++ l2) → Q y = is_camera_b y) as HQ.
  { intros y Hy. unfold Q. rewrite Forall_forall in Hother.
    destruct (Hother y) as [_ ->]; [by apply list_elem_of_In|].
    by rewrite andb_true_r. }
  assert (Q c0 = false) as HQ0.
  { unfold Q. by rewrite Hself, andb_false_r. }
  assert (keep1cam_loop 0 (rev (List.filter is_camera_b (l1 ++ c0 :: l2)))
            (l1 ++ c0 :: l2)
          = Ok (c0 :: List.filter (λ y, negb (is_camera_b y))
                        (l1 ++ c0 :: l2))) as Hloop.
  { rewrite Hcs, rev_app_distr. simpl.
    rewrite (list_remove_distinct _ _ _ Hd). simpl.
    rewrite (keep1cam_loop_removes Q).
    - simpl. rewrite HQ0. simpl. do 2 f_equal.
      rewrite filter_app_mid by (by rewrite Hcam).
      apply filter_ext_in. intros y Hy. by rewrite HQ.
    - by constructor.
    - simpl. rewrite HQ0.
      rewrite (filter_ext_in Q is_camera_b) by exact HQ.
      rewrite <- Permutation_rev.
      rewrite List.filter_app in Hcs. simpl in Hcs. rewrite Hcam in Hcs.
      rewrite List.filter_app.
      apply (Permutation_app_inv_r [c0]).
      rewrite <- Hcs. rewrite <- app_assoc.
      apply Permutation_app_head. simpl.
      apply Permutation_cons_append. }
  eexists. split; [|split].
  - unfold _render_keep1cam. simpl. rewrite Hw. simpl. rewrite Hwc. simpl.
    rewrite filterM_is_camera.
    + simpl. rewrite filter_rev, Hloop. reflexivity.
    + apply Forall_forall. intros x Hx. rewrite Forall_forall in Hok.
      apply Hok. apply list_elem_of_In. apply list_elem_of_In in Hx.
      by apply in_rev.
  - unfold world_children. simpl.
    rewrite obj_get_set_ne by done. rewrite obj_get_set_eq. simpl.
    by rewrite obj_get_set_eq.
  - simpl. by rewrite obj_get_set_eq.
Qed.

(** For instance: two cameras with different names around a mesh. *)
Example keep1cam_distinct_sample :
  ∃ out,
    _render_keep1cam
      (scene [camera_node "Front"; mesh_node; camera_node "Top";
              light "Lamp"]) = Ok out
    ∧ world_children out
      = Ok (JArr [camera_node "Top"; mesh_node; light "Lamp"]).
Proof.
  edestruct (keep1cam_distinct
               [("world", JObj [("name", JStr "world");
                                ("type", JStr "WORLD");
                                ("children",
                                  JArr [camera_node "Front"; mesh_node;
                                        camera_node "Top"; light "Lamp"])]);
                ("lightsManager", JObj [("name", JStr "lightsManager");
                                        ("children", JArr [])])]
               [("name", JStr "world"); ("type", JStr "WORLD");
                ("children",
                  JArr [camera_node "Front"; mesh_node; camera_node "Top";
                        light "Lamp"])]
               [camera_node "Front"; mesh_node; camera_node "Top";
                light "Lamp"]
               (camera_node "Top"))
    as (out & Hrun & Hchildren & _); try reflexivity.
  - repeat constructor.
  - repeat constructor.
  - exists out. split; [exact Hrun|exact Hchildren].
Defined.

(** C3. Two world children that are the same camera node, behind a mesh:
    one camera is left, but it stays behind the mesh; the camera is not
    the first world child. *)
Theorem keep1cam_duplicate_camera :
  let cam := camera_node "Camera" in
  ∃ out,
    _render_keep1cam (scene [mesh_node; cam; cam]) = Ok out
    ∧ world_children out = Ok (JArr [mesh_node; cam])
    ∧ is_camera mesh_node = Ok false
    ∧ getitem out "camera" = Ok identity_camera.
Proof. eexists. repeat split. Qed.
End KeepOneCamera.

Section MaterialFacts.
Import Materials.




Lemma write_value_renamed (kw : PropArgs) (w : World) field :
  field_of (kw_shadertype kw) (kw_propname kw) = Some field →
  _write_value kw w
  = (_write_value_special_cases kw
     ≫= _write_value_snippets field (kw_proptype kw), w).
Proof.
  intros Hf. unfold _write_value. rewrite Hf.
  unfold mbind at 1 2, Py_bind, lift.
  destruct (_write_value_special_cases kw) as [val|e]; [|done].
  simpl. by destruct _write_value_snippets.
Qed.


End MaterialFacts.

Section FallbackFacts.
Import Materials.
Local Open Scope R_scope.

Lemma Rle_bool_true a b : Rle_bool a b = true ↔ a <= b.
Proof. unfold Rle_bool. destruct (Rle_dec a b); split; (done || lra). Qed.

Lemma in_unit_true x : in_unit x = true ↔ 0 <= x <= 1.
Proof.
  unfold in_unit. rewrite andb_true_iff, !Rle_bool_true. done.
Qed.

Lemma MATERIALS_unknown (s : string) :
  s ∉ eight_materials → MATERIALS !! s = None.
Proof. intros H. by apply not_elem_of_list_to_map_1. Qed.

(** Handed a colour instead of a bundle, the fallback template finds no
    [default_color] in it and writes white. *)
Lemma fallback_of_colour name lin :
  _write_material_fallback name (PyRGB lin)
  = Ok (fallback_snippet (PyInt 1) (PyInt 1) (PyInt 1)).
Proof. reflexivity. Qed.

(** Handed an object that has a default colour, the fallback template
    writes that colour when its three components are within [0, 1], and
    white otherwise. *)
Lemma fallback_of_bundle name attrs r g b rest :
  attr_get "default_color" attrs = Some (PyRGB (r :: g :: b :: rest)) →
  _write_material_fallback name (PyObject attrs)
  = Ok (if in_unit r && in_unit g && in_unit b
        then fallback_snippet (PyFloat r) (PyFloat g) (PyFloat b)
        else fallback_snippet (PyInt 1) (PyInt 1) (PyInt 1)).
Proof.
  intros H. unfold _write_material_fallback. simpl. rewrite H. simpl.
  by destruct (in_unit r && in_unit g && in_unit b).
Qed.

Lemma unit_component_one : unit_component (PyInt 1).
Proof. exists 1. simpl. split; [done|lra]. Qed.

(** C1. An unknown shader type: the dispatcher does not raise, warns on the
    console and returns the fallback template, a [type obj] material whose
    [kd] line carries three components within [0, 1]; a default colour
    with a component out of range is not clamped, the line is white. *)
Theorem write_material_unknown_fallback name (m : MaterialValues)
    (w : World) lin :
  shadertype m ∉ eight_materials →
  default_color m = PyRGB lin →
  ∃ red grn blu,
    _write_material name m w
    = (Ok (fallback_snippet red grn blu),
       (emit (PrintWarning
                ("'" +:+ name +:+ "' - Material '" +:+ shadertype m
                 +:+ "' unknown by renderer, using fallback material"
                 +:+ nl)) w).2)
    ∧ unit_component red ∧ unit_component grn ∧ unit_component blu
    ∧ (∀ r g b rest, lin = r :: g :: b :: rest →
         ¬ (0 <= r <= 1 ∧ 0 <= g <= 1 ∧ 0 <= b <= 1) →
         red = PyInt 1 ∧ grn = PyInt 1 ∧ blu = PyInt 1).
Proof.
  intros Hs Hc. exists (PyInt 1), (PyInt 1), (PyInt 1).
  split; [|repeat split; auto using unit_component_one].
  unfold _write_material. rewrite (MATERIALS_unknown _ Hs), Hc.
  reflexivity.
Qed.
End FallbackFacts.

Section LightFacts.
Import OsPath Geom Materials Lights.
Local Open Scope R_scope.

Lemma Req_bool_false a b : a ≠ b → Req_bool a b = false.
Proof. intros H. unfold Req_bool. by destruct (Req_dec_T a b). Qed.

Lemma Req_bool_true a : Req_bool a a = true.
Proof. unfold Req_bool. by destruct (Req_dec_T a a). Qed.

Lemma string_app_inj (a x y : string) : a +:+ x = a +:+ y → x = y.
Proof.
  induction a as [|c a IH]; [done|].
  change (String c (a +:+ x) = String c (a +:+ y) → x = y).
  intros H. injection H as H. auto.
Qed.

(** The material file and the geometry file of one light are distinct. *)
Lemma mtl_obj_distinct (dir name : string) :
  join dir (name +:+ "." +:+ "mtl") ≠ join dir (name +:+ "." +:+ "obj").
Proof.
  unfold join.
  assert (starts_with_sep (name +:+ "." +:+ "mtl")
          = starts_with_sep (name +:+ "." +:+ "obj")) as <-.
  { by destruct name. }
  destruct (starts_with_sep (name +:+ "." +:+ "mtl")).
  - intros H. by apply string_app_inj in H.
  - destruct (String.eqb dir "" || ends_with_sep dir); intros H.
    + by apply string_app_inj, string_app_inj in H.
    + by apply string_app_inj, string_app_inj, string_app_inj in H.
Qed.

(** The conversion swaps y and z and negates the new z. *)
Lemma PLACEMENT_multVec (v : Vector) :
  multVec PLACEMENT v = mkVector (vx v) (vz v) (- vy v).
Proof.
  destruct v as [x y z]. unfold multVec, PLACEMENT, dot. simpl.
  f_equal; ring.
Qed.

(** The fragment of a sun-sky light is a light group, as the flattening
    pass expects it. *)
Lemma sunskylight_fragment_is_light_group name (direction : Vector)
    distance turbidity albedo sun_intensity sky_intensity (w w' : World)
    (fragment : json) :
  write_sunskylight name direction distance turbidity albedo sun_intensity
    sky_intensity w = (Ok fragment, w') →
  Scene.is_lights fragment = Ok true ∧ Scene.wf_node fragment.
Proof.
  unfold write_sunskylight, mbind, Py_bind, lift.
  destruct (py_div _ _) as [q|e]; [|discriminate].
  destruct (math_asin q) as [elevation|e]; [|discriminate].
  destruct (Req_bool sky_intensity 1); simpl; intros [= <- _];
    (split; [reflexivity|split; [exact I|intros _; by eexists]]).
Qed.

End LightFacts.

(** * The area light and the sun-sky light in binary64 *)

Section DoubleLights.
Import OsPath Materials Lights PathViews Samples Double DoubleSamples.
Local Open Scope float_scope.

Lemma is_finite_true (x : float) :
  is_finite x = true → is_nan x = false ∧ is_infinity x = false.
Proof.
  unfold is_finite. destruct (is_nan x), (is_infinity x); simpl; auto.
Qed.

(** [x ** 2] of a finite float, when it does not overflow. *)
Lemma float_pow2_finite (P : Platform) (c : float) :
  is_finite c = true →
  let square :=
    if c =? 0 then 0 else if abs c =? 1 then 1 else libm_pow P (abs c) 2 in
  is_infinity square = false →
  float_pow2 P c = Ok square.
Proof.
  intros Hc square Hs. destruct (is_finite_true c Hc) as [Hn Hi].
  unfold float_pow2. rewrite Hn, Hi. subst square.
  destruct (c =? 0); [done|]. destruct (abs c =? 1); [done|].
  by rewrite Hs.
Qed.

Lemma math_1_passes (func : float → float) (x : float) :
  negb (is_nan (func x) && negb (is_nan x))
  && negb (is_infinity (func x) && is_finite x) = true →
  math_1 func x = Ok (func x).
Proof.
  intros H. apply andb_true_iff in H as [H1 H2].
  apply negb_true_iff in H1, H2. unfold math_1. by rewrite H1, H2.
Qed.

Lemma math_1_fails (func : float → float) (x : float) :
  negb (is_nan (func x) && negb (is_nan x))
  && negb (is_infinity (func x) && is_finite x) = false →
  math_1 func x = Raise ValueError.
Proof.
  unfold math_1.
  destruct (is_nan (func x) && negb (is_nan x)); [done|].
  by destruct (is_infinity (func x) && is_finite x).
Qed.

(** [math.atan2] of two finite floats. *)
Lemma math_atan2_finite (P : Platform) (y x : float) :
  is_finite y = true → is_finite x = true →
  let r :=
    if y =? 0 then
      if get_sign x then copysign pi y else copysign 0 y
    else libm_atan2 P y x in
  is_nan r = false → is_infinity r = false →
  math_atan2 P y x = Ok r.
Proof.
  intros Hy Hx r Hn Hi.
  destruct (is_finite_true y Hy) as [Hyn Hyi].
  destruct (is_finite_true x Hx) as [Hxn Hxi].
  assert (m_atan2 P y x = r) as Hr.
  { unfold m_atan2. rewrite Hxn, Hyn, Hyi, Hxi. reflexivity. }
  unfold math_atan2. by rewrite Hr, Hn, Hi.
Qed.

(** What an area light writes as its material, when the product of its
    sizes is other than zero. *)
Lemma arealight_mtl_file (P : Platform) name (pos : placement P)
    size_u size_v power (transparent : bool) (kw : Dirs) (w : World)
    c0 c1 c2 rest :
  (size_u * size_v =? 0) = false →
  ∃ node w',
    write_arealight P name pos size_u size_v (RGB (c0 :: c1 :: c2 :: rest))
      power transparent kw w
    = (Ok node, w')
    ∧ files w' !! join (object_directory kw) (name +:+ "." +:+ "mtl")
      = Some (FText (arealight_mtl c0 c1 c2
                       (power / (size_u * size_v) / 1000)
                       (if transparent then 1 else 0))).
Proof.
  intros Hprod.
  unfold write_arealight, mbind at 1, Py_bind, lift at 1, float_div.
  rewrite Hprod.
  eexists _, _. split; [reflexivity|]. simpl.
  rewrite lookup_insert_ne by (symmetry; apply mtl_obj_distinct).
  by rewrite lookup_insert_eq.
Qed.

(** C6. An area light of power p whose sizes have a product other than
    zero in binary64: the luminous material file holds, line by line, the
    colour, the intensity (p / (size_u * size_v)) / 1000, the two
    divisions rounded one after the other, and the transparency 1.0 when
    the transparent flag is set and 0.0 otherwise; for p = 1000 and sizes
    1 the intensity is 1.0.  When the product of the sizes is zero, as it
    is for sizes that underflow, the call raises ZeroDivisionError and
    writes nothing. *)
Theorem arealight_radiance (P : Platform) name (pos : placement P)
    size_u size_v color power (transparent : bool) (kw : Dirs) (w : World) :
  let mtl_file := join (object_directory kw) (name +:+ "." +:+ "mtl") in
  let run :=
    write_arealight P name pos size_u size_v color power transparent kw w in
  (∀ c0 c1 c2 rest,
     (size_u * size_v =? 0) = false →
     color = RGB (c0 :: c1 :: c2 :: rest) →
     ∃ node w' mtl,
       run = (Ok node, w')
       ∧ files w' !! mtl_file = Some (FText mtl)
       ∧ text_lines mtl
         = [[];
            [T "# Created by FreeCAD <https://FreeCAD.Org>"; T dq; T ","];
            [T "newmtl material"];
            [T "type luminous"];
            [T "color "; FStr64 c0; T " "; FStr64 c1; T " "; FStr64 c2];
            [T "intensity "; FStr64 (power / (size_u * size_v) / 1000)];
            [T "transparency "; FStr64 (if transparent then 1 else 0)];
            []]
       ∧ (power = 1000 → size_u = 1 → size_v = 1 →
          text_lines mtl !! 5%nat = Some [T "intensity "; FStr64 1]))
  ∧ ((size_u * size_v =? 0) = true → run = (Raise ZeroDivisionError, w)).
Proof.
  intros mtl_file run. split.
  - intros c0 c1 c2 rest Hprod ->. subst run.
    destruct (arealight_mtl_file P name pos size_u size_v power transparent
                kw w c0 c1 c2 rest Hprod) as (node & w' & Hrun & Hfile).
    exists node, w', (arealight_mtl c0 c1 c2
                        (power / (size_u * size_v) / 1000)
                        (if transparent then 1 else 0)).
    split; [exact Hrun|]. split; [exact Hfile|]. split; [reflexivity|].
    intros -> -> ->. reflexivity.
  - intros Hprod. subst run.
    unfold write_arealight, mbind at 1, Py_bind, lift at 1, float_div.
    by rewrite Hprod.
Qed.

Lemma arealight_radiance_witness :
  ∃ node w' mtl,
    write_arealight sample_platform "Light" tt 1 1 white 1000 true
      (mkDirs "/tmp/project" "/tmp/project/objects") empty_world
    = (Ok node, w')
    ∧ files w' !! "/tmp/project/objects/Light.mtl" = Some (FText mtl)
    ∧ text_lines mtl !! 5%nat = Some [T "intensity "; FStr64 1]
    ∧ text_lines mtl !! 6%nat = Some [T "transparency "; FStr64 1].
Proof.
  destruct (arealight_radiance sample_platform "Light" tt 1 1 white 1000
              true (mkDirs "/tmp/project" "/tmp/project/objects")
              empty_world) as [Hrun _].
  destruct (Hrun 1 1 1 []) as (node & w' & mtl & Hok & Hfile & Hlines & _);
    [reflexivity|reflexivity|].
  exists node, w', mtl. split; [exact Hok|]. split; [exact Hfile|].
  rewrite Hlines. split; reflexivity.
Defined.

(** The intensity written can differ from p / (size_u * size_v * 1000):
    for p = 1 and sizes 3 the file holds 0.0001111111111111111, the
    quotient rounded twice, and not 0.00011111111111111112.  And sizes
    other than zero can still divide by zero: with both sizes 2 ^ -600 the
    product underflows. *)
Lemma arealight_intensity_rounds_twice :
  (∃ node w' mtl,
     write_arealight sample_platform "Light" tt 3 3 white 1 true
       (mkDirs "/tmp/project" "/tmp/project/objects") empty_world
     = (Ok node, w')
     ∧ files w' !! "/tmp/project/objects/Light.mtl" = Some (FText mtl)
     ∧ text_lines mtl !! 5%nat
       = Some [T "intensity "; FStr64 0x1.d208a5a912e31p-14])
  ∧ (0x1.d208a5a912e31p-14 =? 1 / (3 * 3 * 1000)) = false
  ∧ (tiny =? 0) = false
  ∧ write_arealight sample_platform "Light" tt tiny tiny white 1 true
      (mkDirs "/tmp/project" "/tmp/project/objects") empty_world
    = (Raise ZeroDivisionError, empty_world).
Proof.
  split; [|split; [reflexivity|split; [reflexivity|]]].
  - destruct (arealight_mtl_file sample_platform "Light" tt 3 3 1 true
                (mkDirs "/tmp/project" "/tmp/project/objects") empty_world
                1 1 1 []) as (node & w' & Hrun & Hfile); [reflexivity|].
    exists node, w', (arealight_mtl 1 1 1 (1 / (3 * 3) / 1000) 1).
    split; [exact Hrun|]. split; [exact Hfile|]. reflexivity.
  - vm_compute. reflexivity.
Qed.

(** C7. A sun-sky light whose converted direction d has finite components,
    in binary64.  Each square is taken as the interpreter takes it (zero
    and one exactly, the rest by the C library's pow); no square overflows
    and the root is a number.  When the norm is zero the call raises
    ZeroDivisionError, and when the C library's asin returns no number it
    raises ValueError.  Otherwise the call succeeds and the snippet
    carries, under their names, the elevation asin(d.y / norm) and the
    azimuth atan2(d.x, d.z), both multiplied by 180 / pi, the intensity
    sun_intensity * 0.05, and the turbidity and the albedo as given; the
    azimuth of a direction with d.x zero is settled by the interpreter: a
    zero of the sign of d.x when d.z is positive, pi with that sign when
    d.z is negative.  For d = (0, 1, 0) and a C library whose asin(1) is
    the double nearest to pi / 2, the snippet carries 90.0 and 0.0.  A
    sky intensity other than 1.0 prints a warning and changes nothing in
    the snippet. *)
Theorem sunskylight_angles (P : Platform) name (direction : Vector)
    distance turbidity albedo sun_intensity sky_intensity (w : World) :
  let d := multVec P (PLACEMENT P) direction in
  let square (c : float) :=
    if c =? 0 then 0 else if abs c =? 1 then 1 else libm_pow P (abs c) 2 in
  let passes (r x : float) :=
    negb (is_nan r && negb (is_nan x))
    && negb (is_infinity r && is_finite x) in
  let squares := square (vx d) + square (vy d) + square (vz d) in
  let norm := PrimFloat.sqrt squares in
  let quotient := vy d / norm in
  let elevation := libm_asin P quotient in
  let azimuth :=
    if vx d =? 0 then
      if get_sign (vz d)
      then (if get_sign (vx d) then - 0x1.921fb54442d18p+1
            else 0x1.921fb54442d18p+1)
      else (if get_sign (vx d) then - 0 else 0)
    else libm_atan2 P (vx d) (vz d) in
  let run (sky : float) :=
    write_sunskylight P name direction distance turbidity albedo
      sun_intensity sky w in
  let line (snippet : text) (k : nat) : option text :=
    text_lines snippet !! k in
  let name_line (n : string) :=
    Some [T ("                " +:+ quoted "name" +:+ ": " +:+ quoted n
             +:+ ",")] in
  let value_line (x : float) :=
    Some [T ("                " +:+ quoted "value" +:+ ": "); FStr64 x] in
  is_finite (vx d) = true → is_finite (vy d) = true →
  is_finite (vz d) = true →
  is_infinity (square (vx d)) = false →
  is_infinity (square (vy d)) = false →
  is_infinity (square (vz d)) = false →
  passes norm squares = true →
  ((norm =? 0) = true → run sky_intensity = (Raise ZeroDivisionError, w))
  ∧ ((norm =? 0) = false → passes elevation quotient = false →
     run sky_intensity = (Raise ValueError, w))
  ∧ ((norm =? 0) = false → passes elevation quotient = true →
     is_nan azimuth = false → is_infinity azimuth = false →
     ∃ snippet,
       run sky_intensity
       = (Ok snippet,
          if sky_intensity =? 1 then w else (emit sunsky_warning w).2)
       ∧ length (text_lines snippet) = 97%nat
       ∧ line snippet 23%nat = name_line "intensity"
       ∧ line snippet 27%nat
         = value_line (sun_intensity * 0x1.999999999999ap-5)
       ∧ line snippet 63%nat = name_line "elevation"
       ∧ line snippet 67%nat
         = value_line (elevation * (180 / 0x1.921fb54442d18p+1))
       ∧ line snippet 71%nat = name_line "azimuth"
       ∧ line snippet 75%nat
         = value_line (azimuth * (180 / 0x1.921fb54442d18p+1))
       ∧ line snippet 79%nat = name_line "turbidity"
       ∧ line snippet 83%nat = value_line turbidity
       ∧ line snippet 87%nat = name_line "albedo"
       ∧ line snippet 91%nat = value_line albedo
       ∧ (vx d = 0 → vy d = 1 → vz d = 0 →
          libm_asin P 1 = 0x1.921fb54442d18p+0 →
          line snippet 67%nat = value_line 90
          ∧ line snippet 75%nat = value_line 0)
       ∧ ((sky_intensity =? 1) = false →
          console (emit sunsky_warning w).2 = console w ++ [sunsky_warning])
       ∧ ∀ sky_intensity', (run sky_intensity').1 = Ok snippet).
Proof.
  intros d square passes squares norm quotient elevation azimuth run line
    name_line value_line Hfx Hfy Hfz Hox Hoy Hoz Hnorm.
  assert (∀ sky,
    run sky
    = (quotient ← lift (float_div (vy d) norm);
       elevation ← lift (math_asin P quotient);
       azimuth ← lift (math_atan2 P (vx d) (vz d));
       _ ← (if sky =? 1 then mret tt else emit sunsky_warning);
       mret (sunsky_snippet name (sun_intensity * 0x1.999999999999ap-5)
               elevation azimuth turbidity albedo)) w) as Hstart.
  { intros sky. subst run. cbv beta. unfold write_sunskylight. fold d.
    rewrite (float_pow2_finite P (vx d) Hfx Hox).
    rewrite (float_pow2_finite P (vy d) Hfy Hoy).
    rewrite (float_pow2_finite P (vz d) Hfz Hoz).
    unfold mbind at 1 2 3, Py_bind, lift at 1 2 3.
    fold (square (vx d)) (square (vy d)) (square (vz d)). fold squares.
    unfold math_sqrt. rewrite (math_1_passes PrimFloat.sqrt squares Hnorm).
    fold norm. reflexivity. }
  split; [|split].
  - intros Hzero. rewrite Hstart.
    unfold mbind at 1, Py_bind, lift at 1, float_div. by rewrite Hzero.
  - intros Hzero Helev. rewrite Hstart.
    unfold mbind at 1, Py_bind, lift at 1, float_div. rewrite Hzero.
    fold quotient. unfold mbind at 1, Py_bind, lift at 1, math_asin.
    by rewrite (math_1_fails (libm_asin P) quotient Helev).
  - intros Hzero Helev Haz1 Haz2.
    assert (∀ sky,
      run sky
      = (Ok (sunsky_snippet name (sun_intensity * 0x1.999999999999ap-5)
               elevation azimuth turbidity albedo),
         if sky =? 1 then w else (emit sunsky_warning w).2)) as Hrun.
    { intros sky. rewrite Hstart.
      unfold mbind at 1, Py_bind, lift at 1, float_div. rewrite Hzero.
      fold quotient. unfold mbind at 1, Py_bind, lift at 1, math_asin.
      rewrite (math_1_passes (libm_asin P) quotient Helev).
      fold elevation.
      assert (math_atan2 P (vx d) (vz d) = Ok azimuth) as ->.
      { pose proof (math_atan2_finite P (vx d) (vz d) Hfx Hfz) as Hatan.
        cbv zeta in Hatan.
        assert ((if vx d =? 0
                 then if get_sign (vz d) then copysign pi (vx d)
                      else copysign 0 (vx d)
                 else libm_atan2 P (vx d) (vz d)) = azimuth) as Heq.
        { subst azimuth. unfold copysign. destruct (vx d =? 0); [|done].
          by destruct (get_sign (vz d)), (get_sign (vx d)). }
        rewrite Heq in Hatan. by apply Hatan. }
      unfold mbind, Py_bind, lift. by destruct (sky =? 1). }
    eexists. split; [apply Hrun|].
    split; [reflexivity|]. do 10 (split; [reflexivity|]).
    split; [|split].
    + intros Hx Hy Hz Hasin. subst line value_line. cbv beta.
      assert (elevation = 0x1.921fb54442d18p+0) as ->.
      { subst elevation quotient norm squares square. cbv beta.
        rewrite Hx, Hy, Hz. exact Hasin. }
      assert (azimuth = 0) as ->.
      { subst azimuth. rewrite Hx, Hz. reflexivity. }
      split; reflexivity.
    + intros _. reflexivity.
    + intros sky'. by rewrite Hrun.
Qed.

Lemma sunskylight_angles_witness :
  ∃ snippet,
    write_sunskylight sample_platform "Sun" (mkVector 0 0 1) 1 2 0.25 1 1
      empty_world
    = (Ok snippet, empty_world)
    ∧ text_lines snippet !! 67%nat
      = Some [T ("                " +:+ quoted "value" +:+ ": "); FStr64 90]
    ∧ text_lines snippet !! 75%nat
      = Some [T ("                " +:+ quoted "value" +:+ ": "); FStr64 0].
Proof.
  destruct (sunskylight_angles sample_platform "Sun" (mkVector 0 0 1)
              1 2 0.25 1 1 empty_world)
    as (_ & _ & Hok); try reflexivity.
  destruct Hok
    as (snippet & Hrun & _ & _ & _ & _ & _ & _ & _ & _ & _ & _ & _ & Hup & _);
    try reflexivity.
  exists snippet. split; [exact Hrun|].
  apply Hup; reflexivity.
Defined.

(** A sun straight above can still fail: the direction (0, 0, 2 ^ -600) is
    other than zero and maps to +Y, its square underflows to zero, and the
    call raises ZeroDivisionError where 90 and 0 degrees were claimed. *)
Lemma sunskylight_tiny_direction_raises :
  (tiny =? 0) = false
  ∧ multVec sample_platform (PLACEMENT sample_platform) (mkVector 0 0 tiny)
    = mkVector 0 tiny 0
  ∧ write_sunskylight sample_platform "Sun" (mkVector 0 0 tiny) 1 2 0.25 1 1
      empty_world
    = (Raise ZeroDivisionError, empty_world).
Proof.
  split; [reflexivity|]. split; [reflexivity|]. vm_compute. reflexivity.
Qed.
End DoubleLights.

Section RenderFacts.
Import OsPath Scene Materials Render.

Lemma string_app_assoc (a b c : string) : (a +:+ b) +:+ c = a +:+ (b +:+ c).
Proof.
  induction a as [|x a IH]; [done|].
  change (String x ((a +:+ b) +:+ c) = String x (a +:+ (b +:+ c))).
  by rewrite IH.
Qed.

(** Appending an extension commutes with joining a plain file name. *)
Lemma join_ospray_out (cache suffix : string) :
  join cache "ospray_out" +:+ suffix = join cache ("ospray_out" +:+ suffix).
Proof.
  unfold join. simpl.
  destruct (String.eqb cache "" || ends_with_sep cache);
    by rewrite string_app_assoc.
Qed.

(** What a call does once the scene file has been read and both passes
    have gone through. *)
Lemma render_run project prefix batch input_file output_file width height
    spp denoise (w : World) (doc doc1 doc2 : json) :
  files w !! input_file = Some (FJson doc) →
  _render_keep1cam doc = Ok doc1 →
  _render_mergelightgroups doc1 = Ok doc2 →
  let out := outfile_actual batch (user_cache_path w) in
  let files' := delete out (<[input_file := FJson doc2]> (files w)) in
  let rpath := pref w "OspPath" in
  let pfx := pref w "Prefix" in
  render project prefix batch input_file output_file width height spp
    denoise w
  = if negb (nonempty rpath) then
      (Ok (None, None),
       mkWorld (console w ++ [locate_error]) files' (prefs w)
         (user_cache_path w) (os_path_relpath w))
    else
      (Ok (Some ((if nonempty pfx then pfx +:+ " " else pfx)
                 +:+ enclose_rpath rpath +:+ " "
                 +:+ render_args batch (pref w "OspParameters") output_file
                       (join (user_cache_path w) "ospray_out")
                       width height spp denoise
                 +:+ " " +:+ (dq +:+ input_file +:+ dq)),
           Some out),
       mkWorld (console w) files' (prefs w) (user_cache_path w)
         (os_path_relpath w)).
Proof.
  intros Hf H1 H2 out files' rpath pfx.
  unfold render, mbind, Py_bind, load_json, lift.
  rewrite Hf, H1, H2. subst out files' rpath pfx.
  unfold pref, outfile_actual, render_args, GetString, write_file,
    remove_if_exists, emit, mret, Py_ret.
  cbn [prefs files console user_cache_path os_path_relpath].
  destruct (negb (nonempty (default "" (prefs w !! "OspPath"))));
    reflexivity.
Qed.

(** X16. When the scene file is missing, is not JSON, or a pass raises,
    the call raises and leaves the world as it was. *)
Lemma render_raises_untouched project prefix batch input_file output_file
    width height spp denoise (w : World) :
  match files w !! input_file with
  | Some (FJson doc) =>
      match _render_keep1cam doc ≫= _render_mergelightgroups with
      | Ok _ => False
      | Raise _ => True
      end
  | _ => True
  end →
  ∃ e, render project prefix batch input_file output_file width height spp
         denoise w = (Raise e, w).
Proof.
  unfold render, mbind at 1 2 3, Py_bind, load_json, lift.
  destruct (files w !! input_file) as [[t|doc]|]; [by eexists| |by eexists].
  simpl. destruct (_render_keep1cam doc) as [doc1|e]; simpl; [|by eexists].
  destruct (_render_mergelightgroups doc1) as [doc2|e]; [done|by eexists].
Qed.

(** C5. With a renderer path configured, the image path returned is the
    cache directory joined with ospray_out.Camera_1.00000.png in batch
    mode and with ospray_out.00000.png otherwise. *)
Theorem render_output_path project prefix batch input_file output_file
    width height spp denoise (w : World) (doc doc1 doc2 : json) :
  files w !! input_file = Some (FJson doc) →
  _render_keep1cam doc = Ok doc1 →
  _render_mergelightgroups doc1 = Ok doc2 →
  pref w "OspPath" ≠ "" →
  ∃ cmd w',
    render project prefix batch input_file output_file width height spp
      denoise w
    = (Ok (Some cmd,
           Some (join (user_cache_path w)
                   (if batch then "ospray_out.Camera_1.00000.png"
                    else "ospray_out.00000.png"))), w').
Proof.
  intros Hf H1 H2 Hpath.
  rewrite (render_run _ _ _ _ _ _ _ _ _ _ _ _ _ Hf H1 H2).
  assert (nonempty (pref w "OspPath") = true) as ->.
  { unfold nonempty. destruct (String.eqb_spec (pref w "OspPath") ""); done. }
  simpl. eexists _, _. f_equal. f_equal. f_equal. f_equal.
  unfold outfile_actual.
  destruct batch; simpl; apply join_ospray_out.
Qed.


(** C10. The scene file is read, both passes are applied and the result is
    written back before the renderer path is looked at: whatever the
    path, the file then holds the transformed document; in particular a
    call that returns no command has rewritten the scene file. *)
Theorem render_rewrites_scene_first project prefix batch input_file
    output_file width height spp denoise (w : World)
    (doc doc1 doc2 : json) :
  files w !! input_file = Some (FJson doc) →
  _render_keep1cam doc = Ok doc1 →
  _render_mergelightgroups doc1 = Ok doc2 →
  ∃ res w',
    render project prefix batch input_file output_file width height spp
      denoise w = (Ok res, w')
    ∧ files w'
      = delete (outfile_actual batch (user_cache_path w))
          (<[input_file := FJson doc2]> (files w))
    ∧ (input_file ≠ outfile_actual batch (user_cache_path w) →
       files w' !! input_file = Some (FJson doc2))
    ∧ (pref w "OspPath" = "" → res = (None, None)).
Proof.
  intros Hf H1 H2.
  rewrite (render_run _ _ _ _ _ _ _ _ _ _ _ _ _ Hf H1 H2).
  destruct (negb (nonempty (pref w "OspPath"))) eqn:E;
    eexists _, _; (split; [reflexivity|]); simpl;
    (split; [reflexivity|split]).
  - intros Hne. rewrite lookup_delete_ne by done. apply lookup_insert_eq.
  - done.
  - intros Hne. rewrite lookup_delete_ne by done. apply lookup_insert_eq.
  - intros Hp. rewrite Hp in E. done.
Qed.
End RenderFacts.

(** * The properties at sample inputs *)

Section AtSamples.
Import OsPath Geom Scene Materials Lights Render Samples.
Local Open Scope R_scope.

(** C1, as first stated, fails: a default colour (2, 0, 0) would clamp to
    (1, 0, 0), and the line written is white. *)
Lemma write_material_unknown_not_clamped :
  let m := plain_bundle "Unknown" (PyRGB [2; 0; 0]) in
  (shadertype m ∉ eight_materials)
  ∧ (_write_material "Box" m empty_world).1
    = Ok (fallback_snippet (PyInt 1) (PyInt 1) (PyInt 1))
  ∧ (_write_material "Box" m empty_world).1
    ≠ Ok (fallback_snippet (PyFloat (clamp01 2)) (PyFloat (clamp01 0))
            (PyFloat (clamp01 0)))
  ∧ (clamp01 2 = 1) ∧ (clamp01 0 = 0).
Proof.
  split; [|split; [reflexivity|split; [discriminate|]]].
  - unfold eight_materials. simpl.
    repeat (apply not_elem_of_cons; split; [discriminate|]).
    apply not_elem_of_nil.
  - unfold clamp01. split.
    + rewrite Rmin_left by lra. apply Rmax_right. lra.
    + rewrite Rmin_right by lra. apply Rmax_left. lra.
Qed.

Lemma write_material_unknown_fallback_witness :
  ∃ red grn blu,
    (_write_material "Box" (plain_bundle "Unknown" (PyRGB [2; 0; 0]))
       empty_world).1 = Ok (fallback_snippet red grn blu)
    ∧ unit_component red ∧ unit_component grn ∧ unit_component blu.
Proof.
  destruct (write_material_unknown_fallback "Box"
              (plain_bundle "Unknown" (PyRGB [2; 0; 0])) empty_world
              [2; 0; 0])
    as (red & grn & blu & Hrun & Hr & Hg & Hb & _).
  - simpl. repeat (apply not_elem_of_cons; split; [discriminate|]).
    apply not_elem_of_nil.
  - reflexivity.
  - exists red, grn, blu. rewrite Hrun. done.
Defined.




Lemma mergelightgroups_flattens_witness :
  ∃ out,
    _render_mergelightgroups (scene two_groups) = Ok out
    ∧ world_children out = Ok (JArr [mesh_node; camera_node "Camera"])
    ∧ lightsmanager_children out
      = Ok (JArr [light "Spot"; light "Sun"; light "Lamp"]).
Proof.
  destruct (mergelightgroups_flattens
              [("world", JObj [("name", JStr "world");
                               ("type", JStr "WORLD");
                               ("children", JArr two_groups)]);
               ("lightsManager", JObj [("name", JStr "lightsManager");
                                       ("children", JArr [])])]
              [("name", JStr "world"); ("type", JStr "WORLD");
               ("children", JArr two_groups)]
              [("name", JStr "lightsManager"); ("children", JArr [])]
              two_groups [])
    as (out & lc' & Hrun & _ & Hworld & _ & Hlm & -> & _);
    try reflexivity.
  - unfold two_groups.
    repeat (constructor;
            [split; [exact I|intros H; first [discriminate H|by eexists]]|]).
    constructor.
  - exists out. split; [exact Hrun|]. split; [exact Hworld|exact Hlm].
Defined.

Lemma render_output_path_witness :
  ∃ cmd w',
    render "Project" "" true "scene.sg" "out.png" 800 600 16 false
      configured_world
    = (Ok (Some cmd,
           Some "/home/user/.cache/FreeCAD/ospray_out.Camera_1.00000.png"),
       w').
Proof.
  edestruct (render_output_path "Project" "" true "scene.sg" "out.png"
               800 600 16 false configured_world one_camera_scene)
    as (cmd & w' & Hrun);
    [reflexivity|reflexivity|reflexivity|discriminate|].
  exists cmd, w'. exact Hrun.
Defined.


Lemma render_rewrites_scene_first_witness :
  ∃ doc2 w',
    render "Project" "" false "scene.sg" "out.png" 800 600 16 false
      (scene_world one_camera_scene) = (Ok (None, None), w')
    ∧ files w' !! "scene.sg" = Some (FJson doc2)
    ∧ world_children doc2 = Ok (JArr [camera_node "Camera"; mesh_node])
    ∧ world_children one_camera_scene
      = Ok (JArr [mesh_node; camera_node "Camera"]).
Proof.
  edestruct (render_rewrites_scene_first "Project" "" false "scene.sg"
               "out.png" 800 600 16 false (scene_world one_camera_scene)
               one_camera_scene)
    as (res & w' & Hrun & _ & Hfile & Hres);
    [reflexivity|reflexivity|reflexivity|].
  eexists _, w'. rewrite Hrun, (Hres eq_refl).
  split; [reflexivity|]. split; [apply Hfile; discriminate|].
  split; reflexivity.
Defined.

End AtSamples.

(** * Further properties of the scene passes *)

Section SceneRuns.
Import Scene Samples.

Lemma obj_set_same k v m : obj_get k m = Some v → obj_set k v m = m.
Proof.
  induction m as [|[k' v'] m IH]; simpl; [done|].
  destruct (String.eqb_spec k' k) as [->|Hne].
  - by intros [= ->].
  - intros H. by rewrite IH.
Qed.

(** What camera deduplication returns once its loop has gone through. *)
Lemma keep1cam_run (top w : list (string * json)) (wc l' : list json) :
  obj_get "world" top = Some (JObj w) →
  obj_get "children" w = Some (JArr wc) →
  Forall (λ c, is_Ok (is_camera c)) wc →
  keep1cam_loop 0 (rev (List.filter is_camera_b wc)) wc = Ok l' →
  _render_keep1cam (JObj top)
  = Ok (JObj (obj_set "camera" identity_camera
                (obj_set "world" (JObj (obj_set "children" (JArr l') w))
                   top))).
Proof.
  intros Hw Hwc Hok Hloop.
  unfold _render_keep1cam. simpl. rewrite Hw. simpl. rewrite Hwc. simpl.
  rewrite filterM_is_camera.
  - simpl. rewrite filter_rev, Hloop. reflexivity.
  - apply Forall_forall. intros x Hx. rewrite Forall_forall in Hok.
    apply Hok. apply list_elem_of_In. apply list_elem_of_In in Hx.
    by apply in_rev.
Qed.

(** The loop on pairwise different children. *)
Lemma keep1cam_loop_distinct (wc : list json) (c0 : json) :
  distinct wc →
  last (List.filter is_camera_b wc) = Some c0 →
  keep1cam_loop 0 (rev (List.filter is_camera_b wc)) wc
  = Ok (c0 :: List.filter (λ y, negb (is_camera_b y)) wc).
Proof.
  intros Hd Hlast.
  apply last_Some in Hlast as [cs Hcs].
  assert (In c0 (List.filter is_camera_b wc)) as Hin.
  { rewrite Hcs. apply in_or_app. right. by left. }
  apply filter_In in Hin as [Hin Hcam].
  apply in_split in Hin as (l1 & l2 & ->).
  destruct (distinct_app_inv _ _ _ Hd) as (Hself & Hother & Hd').
  set (Q := λ y, is_camera_b y && negb (json_eqb y c0)).
  assert (∀ y, In y (l1 ++ l2) → Q y = is_camera_b y) as HQ.
  { intros y Hy. unfold Q. rewrite Forall_forall in Hother.
    destruct (Hother y) as [_ ->]; [by apply list_elem_of_In|].
    by rewrite andb_true_r. }
  assert (Q c0 = false) as HQ0.
  { unfold Q. by rewrite Hself, andb_false_r. }
  rewrite Hcs, rev_app_distr. simpl.
  rewrite (list_remove_distinct _ _ _ Hd). simpl.
  rewrite (keep1cam_loop_removes Q).
  - simpl. rewrite HQ0. simpl. do 2 f_equal.
    rewrite filter_app_mid by (by rewrite Hcam).
    apply filter_ext_in. intros y Hy. by rewrite HQ.
  - by constructor.
  - simpl. rewrite HQ0.
    rewrite (filter_ext_in Q is_camera_b) by exact HQ.
    rewrite <- Permutation_rev.
    rewrite List.filter_app in Hcs. simpl in Hcs. rewrite Hcam in Hcs.
    rewrite List.filter_app.
    apply (Permutation_app_inv_r [c0]).
    rewrite <- Hcs. rewrite <- app_assoc.
    apply Permutation_app_head. simpl.
    apply Permutation_cons_append.
Qed.

Lemma filter_none {A} (f : A → bool) (l : list A) :
  Forall (λ x, f x = false) l → List.filter f l = [].
Proof. induction 1 as [|x l Hx _ IH]; simpl; [done|by rewrite Hx]. Qed.

Lemma filter_all {A} (f : A → bool) (l : list A) :
  Forall (λ x, f x = true) l → List.filter f l = l.
Proof. induction 1 as [|x l Hx _ IH]; simpl; [done|by rewrite Hx, IH]. Qed.

Lemma filter_negb_filter {A} (f : A → bool) (l : list A) :
  List.filter f (List.filter (λ y, negb (f y)) l) = [].
Proof.
  apply filter_none, Forall_forall. intros x Hx.
  apply list_elem_of_In, filter_In in Hx as [_ Hx]. by destruct (f x).
Qed.

(** What light-group flattening returns on well-formed world children. *)
Lemma mergelightgroups_run (top w lm : list (string * json))
    (wc lc : list json) :
  obj_get "world" top = Some (JObj w) →
  obj_get "children" w = Some (JArr wc) →
  obj_get "lightsManager" top = Some (JObj lm) →
  obj_get "children" lm = Some (JArr lc) →
  Forall wf_node wc →
  _render_mergelightgroups (JObj top)
  = Ok (JObj
          (obj_set "lightsManager"
             (JObj (obj_set "children"
                      (JArr (lc ++ concat
                                     (map node_children
                                        (rev (List.filter is_lights_b wc)))))
                      lm))
             (obj_set "world"
                (JObj (obj_set "children"
                         (JArr (List.filter (λ x, negb (is_lights_b x)) wc))
                         w))
                top))).
Proof.
  intros Hw Hwc Hlm Hlc Hwf.
  destruct (wf_node_cases wc Hwf) as (Hok & Hothers & Hgroups).
  unfold _render_mergelightgroups. simpl. rewrite Hw. simpl.
  rewrite Hwc. simpl. rewrite (list_sort_stable wc Hok). simpl.
  rewrite rev_app_distr, pop_lightgroups_lights, pop_lightgroups_stop.
  - simpl. rewrite !obj_get_set_ne by done. rewrite Hlm. simpl.
    rewrite Hlc. simpl. rewrite rev_involutive. reflexivity.
  - apply Forall_forall. intros x Hx. rewrite Forall_forall in Hothers.
    apply Hothers. apply list_elem_of_In. apply list_elem_of_In in Hx.
    by apply in_rev.
  - apply Forall_forall. intros x Hx. rewrite Forall_forall in Hgroups.
    apply Hgroups. apply list_elem_of_In. apply list_elem_of_In in Hx.
    by apply in_rev.
Qed.
End SceneRuns.

Section SceneProperties.
Import Scene Samples MoreSamples.

(** X1. Camera deduplication without any camera: the world children are left
    as they are and the only change to the document is the camera
    descriptor. *)
Theorem keep1cam_no_camera (top w : list (string * json)) (wc : list json) :
  obj_get "world" top = Some (JObj w) →
  obj_get "children" w = Some (JArr wc) →
  Forall (λ c, is_camera c = Ok false) wc →
  _render_keep1cam (JObj top)
  = Ok (JObj (obj_set "camera" identity_camera top)).
Proof.
  intros Hw Hwc Hno.
  assert (List.filter is_camera_b wc = []) as Hnone.
  { apply filter_none. eapply Forall_impl; [exact Hno|].
    intros c Hc. unfold is_camera_b. by rewrite Hc. }
  rewrite (keep1cam_run top w wc wc Hw Hwc).
  - by rewrite (obj_set_same _ _ _ Hwc), (obj_set_same _ _ _ Hw).
  - eapply Forall_impl; [exact Hno|]. intros c Hc. by rewrite Hc.
  - by rewrite Hnone.
Qed.

Lemma keep1cam_no_camera_witness :
  _render_keep1cam (scene [mesh_node; light "Lamp"])
  = Ok (JObj [("world", JObj [("name", JStr "world"); ("type", JStr "WORLD");
                              ("children", JArr [mesh_node; light "Lamp"])]);
              ("lightsManager", JObj [("name", JStr "lightsManager");
                                      ("children", JArr [])]);
              ("camera", identity_camera)]).
Proof.
  apply (keep1cam_no_camera (scene_top [mesh_node; light "Lamp"])
           (world_of [mesh_node; light "Lamp"])
           [mesh_node; light "Lamp"]); try reflexivity.
  repeat constructor.
Defined.

Lemma filterM_non_dict (l : list json) (x : json) :
  In x l → (∀ m, x ≠ JObj m) → filterM is_camera l = Raise AttributeError.
Proof.
  intros Hin Hx. induction l as [|y l IH]; [destruct Hin|].
  simpl. destruct Hin as [->|Hin].
  - destruct x; try reflexivity. by destruct (Hx m).
  - rewrite (IH Hin). by destruct y.
Qed.

(** X2. A world child that is not a JSON object (a string, a number, a
    list) makes camera deduplication raise AttributeError, wherever it
    stands among the children. *)
Theorem keep1cam_non_dict_child (top w : list (string * json))
    (wc : list json) (x : json) :
  obj_get "world" top = Some (JObj w) →
  obj_get "children" w = Some (JArr wc) →
  In x wc → (∀ m, x ≠ JObj m) →
  _render_keep1cam (JObj top) = Raise AttributeError.
Proof.
  intros Hw Hwc Hin Hx.
  unfold _render_keep1cam. simpl. rewrite Hw. simpl. rewrite Hwc. simpl.
  rewrite (filterM_non_dict (rev wc) x); [done| |done].
  by apply -> in_rev.
Qed.

Lemma keep1cam_non_dict_child_witness :
  _render_keep1cam (scene [camera_node "Camera"; JStr "stray"; mesh_node])
  = Raise AttributeError.
Proof.
  apply (keep1cam_non_dict_child
           (scene_top [camera_node "Camera"; JStr "stray"; mesh_node])
           (world_of [camera_node "Camera"; JStr "stray"; mesh_node])
           [camera_node "Camera"; JStr "stray"; mesh_node] (JStr "stray"));
    try reflexivity.
  - right. by left.
  - discriminate.
Defined.

(** X3. On pairwise different world children, camera deduplication is
    idempotent: a second pass over its own result changes nothing. *)
Theorem keep1cam_idempotent (top w : list (string * json))
    (wc : list json) (c0 : json) :
  obj_get "world" top = Some (JObj w) →
  obj_get "children" w = Some (JArr wc) →
  Forall (λ c, is_Ok (is_camera c)) wc →
  distinct wc →
  last (List.filter is_camera_b wc) = Some c0 →
  ∃ out, _render_keep1cam (JObj top) = Ok out
         ∧ _render_keep1cam out = Ok out.
Proof.
  intros Hw Hwc Hok Hd Hlast.
  pose proof (keep1cam_loop_distinct wc c0 Hd Hlast) as Hloop.
  set (l' := c0 :: List.filter (λ y, negb (is_camera_b y)) wc) in *.
  set (w' := obj_set "children" (JArr l') w).
  set (top' := obj_set "camera" identity_camera
                 (obj_set "world" (JObj w') top)).
  assert (In c0 wc ∧ is_camera_b c0 = true) as [Hin Hcam].
  { apply last_Some in Hlast as [cs Hcs]. apply filter_In.
    rewrite Hcs. apply in_or_app. right. by left. }
  assert (json_eqb c0 c0 = true) as Hself.
  { apply in_split in Hin as (l1 & l2 & ->).
    by destruct (distinct_app_inv _ _ _ Hd). }
  exists (JObj top').
  split; [exact (keep1cam_run top w wc l' Hw Hwc Hok Hloop)|].
  assert (obj_get "world" top' = Some (JObj w')) as Hw'.
  { unfold top'. rewrite obj_get_set_ne by done. apply obj_get_set_eq. }
  assert (obj_get "children" w' = Some (JArr l')) as Hwc'
    by apply obj_get_set_eq.
  rewrite (keep1cam_run top' w' l' l' Hw' Hwc').
  - rewrite (obj_set_same _ _ _ Hwc'), (obj_set_same _ _ _ Hw').
    f_equal. f_equal. apply obj_set_same. apply obj_get_set_eq.
  - constructor.
    + rewrite Forall_forall in Hok. apply Hok. by apply list_elem_of_In.
    + apply Forall_forall. intros y Hy.
      apply list_elem_of_In, filter_In in Hy as [Hy _].
      rewrite Forall_forall in Hok. apply Hok. by apply list_elem_of_In.
  - unfold l'. simpl. rewrite Hcam, filter_negb_filter. simpl.
    by rewrite Hself.
Qed.

Lemma keep1cam_idempotent_witness :
  ∃ out,
    _render_keep1cam
      (scene [camera_node "Front"; mesh_node; camera_node "Top"]) = Ok out
    ∧ _render_keep1cam out = Ok out.
Proof.
  apply (keep1cam_idempotent
           (scene_top [camera_node "Front"; mesh_node; camera_node "Top"])
           (world_of [camera_node "Front"; mesh_node; camera_node "Top"])
           [camera_node "Front"; mesh_node; camera_node "Top"]
           (camera_node "Top")); try reflexivity.
  - repeat constructor.
  - repeat constructor.
Defined.

(** Without that condition a second pass may differ from the first: a
    duplicated camera left behind a mesh is moved in front by the second
    pass. *)
Example keep1cam_twice_on_duplicates :
  let cam := camera_node "Camera" in
  (once ← _render_keep1cam (scene [mesh_node; cam; cam]);
   world_children once)
  = Ok (JArr [mesh_node; cam])
  ∧ (once ← _render_keep1cam (scene [mesh_node; cam; cam]);
     twice ← _render_keep1cam once;
     world_children twice)
    = Ok (JArr [cam; mesh_node]).
Proof. split; reflexivity. Qed.
End SceneProperties.

Section FlatteningProperties.
Import Scene Samples MoreSamples.

(** X4. Light-group flattening on a scene without light groups returns the
    document unchanged. *)
Theorem mergelightgroups_no_groups (top w lm : list (string * json))
    (wc lc : list json) :
  obj_get "world" top = Some (JObj w) →
  obj_get "children" w = Some (JArr wc) →
  obj_get "lightsManager" top = Some (JObj lm) →
  obj_get "children" lm = Some (JArr lc) →
  Forall (λ x, is_lights x = Ok false) wc →
  _render_mergelightgroups (JObj top) = Ok (JObj top).
Proof.
  intros Hw Hwc Hlm Hlc Hno.
  assert (Forall (λ x, is_lights_b x = false) wc) as Hb.
  { eapply Forall_impl; [exact Hno|]. intros x Hx.
    unfold is_lights_b. by rewrite Hx. }
  rewrite (mergelightgroups_run top w lm wc lc Hw Hwc Hlm Hlc).
  - rewrite (filter_none is_lights_b wc Hb). simpl. rewrite app_nil_r.
    rewrite (filter_all (λ x, negb (is_lights_b x)) wc).
    + by rewrite (obj_set_same _ _ _ Hwc), (obj_set_same _ _ _ Hw),
        (obj_set_same _ _ _ Hlc), (obj_set_same _ _ _ Hlm).
    + eapply Forall_impl; [exact Hb|]. intros x Hx. by rewrite Hx.
  - eapply Forall_impl; [exact Hno|]. intros x Hx. split.
    + by rewrite Hx.
    + rewrite Hx. discriminate.
Qed.

Lemma mergelightgroups_no_groups_witness :
  _render_mergelightgroups (scene [mesh_node; camera_node "Camera"])
  = Ok (scene [mesh_node; camera_node "Camera"]).
Proof.
  apply (mergelightgroups_no_groups
           (scene_top [mesh_node; camera_node "Camera"])
           (world_of [mesh_node; camera_node "Camera"])
           (lights_manager_of [])
           [mesh_node; camera_node "Camera"] []); try reflexivity.
  repeat constructor.
Defined.

(** X5. Light-group flattening is idempotent on well-formed scenes: a
    second pass over its own result changes nothing (the lights are not
    appended twice). *)
Theorem mergelightgroups_idempotent (top w lm : list (string * json))
    (wc lc : list json) :
  obj_get "world" top = Some (JObj w) →
  obj_get "children" w = Some (JArr wc) →
  obj_get "lightsManager" top = Some (JObj lm) →
  obj_get "children" lm = Some (JArr lc) →
  Forall wf_node wc →
  ∃ out, _render_mergelightgroups (JObj top) = Ok out
         ∧ _render_mergelightgroups out = Ok out.
Proof.
  intros Hw Hwc Hlm Hlc Hwf.
  destruct (wf_node_cases wc Hwf) as (_ & Hothers & _).
  rewrite (mergelightgroups_run top w lm wc lc Hw Hwc Hlm Hlc Hwf).
  set (others := List.filter (λ x, negb (is_lights_b x)) wc) in *.
  set (lc' := lc ++ concat (map node_children
                              (rev (List.filter is_lights_b wc)))).
  set (w' := obj_set "children" (JArr others) w).
  set (lm' := obj_set "children" (JArr lc') lm).
  set (top' := obj_set "lightsManager" (JObj lm')
                 (obj_set "world" (JObj w') top)).
  exists (JObj top'). split; [done|].
  assert (obj_get "world" top' = Some (JObj w')) as Hw'.
  { unfold top'. rewrite obj_get_set_ne by done. apply obj_get_set_eq. }
  assert (obj_get "lightsManager" top' = Some (JObj lm')) as Hlm'
    by apply obj_get_set_eq.
  assert (obj_get "children" w' = Some (JArr others)) as Hwc'
    by apply obj_get_set_eq.
  assert (obj_get "children" lm' = Some (JArr lc')) as Hlc'
    by apply obj_get_set_eq.
  assert (Forall (λ x, is_lights_b x = false) others) as Hb.
  { eapply Forall_impl; [exact Hothers|]. intros x Hx.
    unfold is_lights_b. by rewrite Hx. }
  rewrite (mergelightgroups_run top' w' lm' others lc' Hw' Hwc' Hlm' Hlc').
  - rewrite (filter_none is_lights_b others Hb). simpl. rewrite app_nil_r.
    rewrite (filter_all (λ x, negb (is_lights_b x)) others).
    + by rewrite (obj_set_same _ _ _ Hwc'), (obj_set_same _ _ _ Hw'),
        (obj_set_same _ _ _ Hlc'), (obj_set_same _ _ _ Hlm').
    + eapply Forall_impl; [exact Hb|]. intros x Hx. by rewrite Hx.
  - eapply Forall_impl; [exact Hothers|]. intros x Hx. split.
    + by rewrite Hx.
    + rewrite Hx. discriminate.
Qed.

Lemma mergelightgroups_idempotent_witness :
  ∃ out, _render_mergelightgroups (scene two_groups) = Ok out
         ∧ _render_mergelightgroups out = Ok out.
Proof.
  apply (mergelightgroups_idempotent (scene_top two_groups)
           (world_of two_groups) (lights_manager_of []) two_groups []);
    try reflexivity.
  unfold two_groups.
  repeat (constructor;
          [split; [exact I|intros H; first [discriminate H|by eexists]]|]).
  constructor.
Defined.

Lemma mapM_is_lights_KeyError (l : list json) :
  Forall (λ x, ∃ m, x = JObj m) l →
  Exists (λ x, getitem x "type" = Raise KeyError) l →
  mapM_Res is_lights l = Raise KeyError.
Proof.
  intros Hobj Hex. induction Hex as [x l Hx|x l _ IH].
  - simpl. unfold is_lights. by rewrite Hx.
  - apply Forall_cons in Hobj as [[m ->] Hobj]. simpl.
    rewrite (IH Hobj). unfold is_lights, getitem.
    by destruct (obj_get "type" m).
Qed.

(** X6. When the world children are JSON objects and one of them has no
    "type" key, light-group flattening raises KeyError: the key of every
    child is computed before anything is moved. *)
Theorem mergelightgroups_child_without_type (top w : list (string * json))
    (wc : list json) :
  obj_get "world" top = Some (JObj w) →
  obj_get "children" w = Some (JArr wc) →
  Forall (λ x, ∃ m, x = JObj m) wc →
  Exists (λ x, getitem x "type" = Raise KeyError) wc →
  _render_mergelightgroups (JObj top) = Raise KeyError.
Proof.
  intros Hw Hwc Hobj Hex.
  unfold _render_mergelightgroups. simpl. rewrite Hw. simpl.
  rewrite Hwc. simpl. unfold list_sort.
  by rewrite (mapM_is_lights_KeyError wc Hobj Hex).
Qed.

Lemma mergelightgroups_child_without_type_witness :
  _render_mergelightgroups
    (scene [lights_node [light "Sun"]; JObj [("name", JStr "untyped")]])
  = Raise KeyError.
Proof.
  apply (mergelightgroups_child_without_type
           (scene_top [lights_node [light "Sun"];
                       JObj [("name", JStr "untyped")]])
           (world_of [lights_node [light "Sun"];
                      JObj [("name", JStr "untyped")]])
           [lights_node [light "Sun"]; JObj [("name", JStr "untyped")]]);
    try reflexivity.
  - repeat constructor; by eexists.
  - right. left. reflexivity.
Defined.

Lemma filter_twice {A} (f g : A → bool) (l : list A) :
  List.filter f (List.filter g l) = List.filter (λ y, g y && f y) l.
Proof.
  induction l as [|y l IH]; [done|].
  simpl. destruct (g y); simpl; [destruct (f y)|]; by rewrite IH.
Qed.

(** X7. The two passes in the order [render] applies them: on pairwise
    different, well-formed world children whose last camera is not a light
    group, the result has that camera first, followed by the nodes that are
    neither cameras nor light groups, in their original order; the camera
    descriptor is in place. *)
Theorem passes_keep_camera_first (top w lm : list (string * json))
    (wc lc : list json) (c0 : json) :
  obj_get "world" top = Some (JObj w) →
  obj_get "children" w = Some (JArr wc) →
  obj_get "lightsManager" top = Some (JObj lm) →
  obj_get "children" lm = Some (JArr lc) →
  Forall (λ c, is_Ok (is_camera c)) wc →
  Forall wf_node wc →
  distinct wc →
  last (List.filter is_camera_b wc) = Some c0 →
  is_lights_b c0 = false →
  ∃ out,
    (doc ← _render_keep1cam (JObj top); _render_mergelightgroups doc)
    = Ok out
    ∧ world_children out
      = Ok (JArr (c0 :: List.filter
                          (λ y, negb (is_camera_b y) && negb (is_lights_b y))
                          wc))
    ∧ getitem out "camera" = Ok identity_camera.
Proof.
  intros Hw Hwc Hlm Hlc Hok Hwf Hd Hlast Hc0.
  pose proof (keep1cam_loop_distinct wc c0 Hd Hlast) as Hloop.
  set (l' := c0 :: List.filter (λ y, negb (is_camera_b y)) wc) in *.
  rewrite (keep1cam_run top w wc l' Hw Hwc Hok Hloop). simpl.
  set (w' := obj_set "children" (JArr l') w).
  set (top' := obj_set "camera" identity_camera
                 (obj_set "world" (JObj w') top)).
  assert (In c0 wc) as Hin.
  { apply last_Some in Hlast as [cs Hcs].
    assert (In c0 (List.filter is_camera_b wc)) as H.
    { rewrite Hcs. apply in_or_app. right. by left. }
    by apply filter_In in H as [H _]. }
  assert (obj_get "world" top' = Some (JObj w')) as Hw'.
  { unfold top'. rewrite obj_get_set_ne by done. apply obj_get_set_eq. }
  assert (obj_get "children" w' = Some (JArr l')) as Hwc'
    by apply obj_get_set_eq.
  assert (obj_get "lightsManager" top' = Some (JObj lm)) as Hlm'.
  { unfold top'. by rewrite !obj_get_set_ne. }
  assert (Forall wf_node l') as Hwf'.
  { rewrite Forall_forall in Hwf. constructor.
    - apply Hwf. by apply list_elem_of_In.
    - apply Forall_forall. intros y Hy.
      apply list_elem_of_In, filter_In in Hy as [Hy _].
      apply Hwf. by apply list_elem_of_In. }
  rewrite (mergelightgroups_run top' w' lm l' lc Hw' Hwc' Hlm' Hlc Hwf').
  eexists. split; [reflexivity|]. split.
  - unfold world_children. simpl.
    rewrite obj_get_set_ne by done. rewrite obj_get_set_eq. simpl.
    rewrite obj_get_set_eq. do 2 f_equal.
    unfold l'. simpl. rewrite Hc0. simpl. f_equal.
    apply filter_twice.
  - simpl. rewrite obj_get_set_ne by done. unfold top'.
    by rewrite obj_get_set_ne, obj_get_set_eq.
Qed.

Lemma passes_keep_camera_first_witness :
  ∃ out,
    (doc ← _render_keep1cam (scene lit_children);
     _render_mergelightgroups doc) = Ok out
    ∧ world_children out = Ok (JArr [camera_node "Top"; mesh_node]).
Proof.
  destruct (passes_keep_camera_first (scene_top lit_children)
              (world_of lit_children) (lights_manager_of []) lit_children []
              (camera_node "Top"))
    as (out & Hrun & Hworld & _); try reflexivity.
  - repeat constructor.
  - unfold lit_children.
    repeat (constructor;
            [split; [exact I|intros H; first [discriminate H|by eexists]]|]).
    constructor.
  - repeat constructor.
  - exists out. split; [exact Hrun|exact Hworld].
Defined.
End FlatteningProperties.

(** * Further properties of the render function *)

Section RenderProperties.
Import OsPath Scene Materials Render Samples MoreSamples.

(** X8. Once the scene file has been read and both passes have gone
    through, a call leaves no file at the path of the image the renderer
    will write (a stale image is removed, with or without a renderer path),
    and touches no file other than that one and the scene file. *)
Theorem render_removes_stale_image project prefix batch input_file
    output_file width height spp denoise (w : World)
    (doc doc1 doc2 : json) :
  files w !! input_file = Some (FJson doc) →
  _render_keep1cam doc = Ok doc1 →
  _render_mergelightgroups doc1 = Ok doc2 →
  let w' := (render project prefix batch input_file output_file width
               height spp denoise w).2 in
  let image := outfile_actual batch (user_cache_path w) in
  files w' !! image = None
  ∧ ∀ path, path ≠ input_file → path ≠ image →
            files w' !! path = files w !! path.
Proof.
  intros Hf H1 H2 w' image. subst w'.
  rewrite (render_run _ _ _ _ _ _ _ _ _ _ _ _ _ Hf H1 H2).
  fold image.
  destruct (negb (nonempty (pref w "OspPath"))); simpl; split.
  - apply lookup_delete_eq.
  - intros path Hp Hi. by rewrite lookup_delete_ne, lookup_insert_ne.
  - apply lookup_delete_eq.
  - intros path Hp Hi. by rewrite lookup_delete_ne, lookup_insert_ne.
Qed.

Lemma render_removes_stale_image_witness :
  files stale_world !! "/home/user/.cache/FreeCAD/ospray_out.00000.png"
  = Some (FText [])
  ∧ files (render "Project" "" false "scene.sg" "out.png" 800 600 16 false
             stale_world).2
      !! "/home/user/.cache/FreeCAD/ospray_out.00000.png" = None.
Proof.
  split; [reflexivity|].
  edestruct (render_removes_stale_image "Project" "" false "scene.sg"
               "out.png" 800 600 16 false stale_world one_camera_scene)
    as [Hgone _]; [reflexivity|reflexivity|reflexivity|].
  exact Hgone.
Defined.

(** X9. The call does not depend on its [project] and [prefix] arguments
    (the prefix comes from the preferences), and on [output_file] only
    through its being empty or not: the image path the user asked for is
    not taken into account. *)
Theorem render_ignores_requested_output project project' prefix prefix'
    batch input_file output_file output_file' width height spp denoise
    (w : World) :
  nonempty output_file = nonempty output_file' →
  render project prefix batch input_file output_file width height spp
    denoise w
  = render project' prefix' batch input_file output_file' width height spp
      denoise w.
Proof.
  intros Hne.
  unfold render, mbind, Py_bind, load_json, lift.
  destruct (files w !! input_file) as [[t|doc]|]; try reflexivity.
  destruct (_render_keep1cam doc) as [doc1|e]; try reflexivity.
  destruct (_render_mergelightgroups doc1) as [doc2|e]; try reflexivity.
  unfold GetString, write_file, remove_if_exists, emit, mret, Py_ret.
  cbn [prefs files console user_cache_path os_path_relpath].
  by rewrite Hne.
Qed.

Lemma render_ignores_requested_output_witness :
  render "Project" "" true "scene.sg" "/home/user/first.png" 800 600 16
    false configured_world
  = render "Other" "nice" true "scene.sg" "/tmp/second.png" 800 600 16
      false configured_world.
Proof.
  apply render_ignores_requested_output. reflexivity.
Defined.

Lemma render_raises_untouched_witness :
  ∃ e, render "Project" "" false "missing.sg" "out.png" 800 600 16 false
         (scene_world one_camera_scene)
       = (Raise e, scene_world one_camera_scene).
Proof.
  apply render_raises_untouched. exact I.
Defined.

Lemma list_ascii_app (a b : string) :
  list_ascii_of_string (a +:+ b)
  = list_ascii_of_string a ++ list_ascii_of_string b.
Proof.
  induction a as [|c a IH]; [done|].
  change (c :: list_ascii_of_string (a +:+ b)
          = c :: (list_ascii_of_string a ++ list_ascii_of_string b)).
  by rewrite IH.
Qed.

Lemma last_char_snoc (a : string) (c : ascii) :
  last_char (a +:+ String c EmptyString) = Some c.
Proof. unfold last_char. rewrite list_ascii_app. apply last_snoc. Qed.

(** X10. Enclosing a renderer path in quotes: the result of a non-empty
    path starts and ends with the same quote character (double or single),
    and enclosing twice is the same as enclosing once. *)
Theorem enclose_rpath_quoted (rpath : string) :
  enclose_rpath (enclose_rpath rpath) = enclose_rpath rpath
  ∧ (rpath ≠ "" →
     ∃ q, (q = ascii_of_nat 34 ∨ q = "'"%char)
          ∧ first_char (enclose_rpath rpath) = Some q
          ∧ last_char (enclose_rpath rpath) = Some q).
Proof.
  assert (∀ r, first_char (dq +:+ r +:+ dq) = Some (ascii_of_nat 34)
               ∧ last_char (dq +:+ r +:+ dq) = Some (ascii_of_nat 34))
    as Hdq.
  { intros r. split; [reflexivity|].
    rewrite <- string_app_assoc. apply last_char_snoc. }
  assert (rpath = "" ∧ enclose_rpath rpath = ""
          ∨ rpath ≠ ""
            ∧ ((∃ q, (q = ascii_of_nat 34 ∨ q = "'"%char)
                     ∧ first_char rpath = Some q ∧ last_char rpath = Some q
                     ∧ enclose_rpath rpath = rpath)
               ∨ enclose_rpath rpath = dq +:+ rpath +:+ dq)) as Hcases.
  { unfold enclose_rpath.
    destruct (String.eqb_spec rpath "") as [->|Hne]; [by left|].
    right. split; [done|].
    destruct (bool_decide (first_char rpath = Some (ascii_of_nat 34))
              && bool_decide (last_char rpath = Some (ascii_of_nat 34)))
      eqn:Edq.
    { apply andb_true_iff in Edq as [H1 H2].
      apply bool_decide_eq_true in H1, H2.
      left. exists (ascii_of_nat 34). by auto. }
    destruct (bool_decide (first_char rpath = Some "'"%char)
              && bool_decide (last_char rpath = Some "'"%char)) eqn:Esq.
    { apply andb_true_iff in Esq as [H1 H2].
      apply bool_decide_eq_true in H1, H2.
      left. exists "'"%char. by auto. }
    by right. }
  destruct Hcases as [[-> _]|[Hne [(q & Hq & Hf & Hl & Heq)|Heq]]].
  - by split.
  - rewrite Heq. split; [exact Heq|]. intros _. exists q. by auto.
  - rewrite Heq. destruct (Hdq rpath) as [Hfirst Hlast]. split.
    + unfold enclose_rpath.
      rewrite Hfirst, Hlast, !bool_decide_eq_true_2 by done. reflexivity.
    + intros _. exists (ascii_of_nat 34). by auto.
Qed.

Lemma enclose_rpath_quoted_witness :
  enclose_rpath (enclose_rpath "/opt/OSPRay Studio/ospStudio")
  = enclose_rpath "/opt/OSPRay Studio/ospStudio"
  ∧ first_char (enclose_rpath "/opt/OSPRay Studio/ospStudio")
    = Some (ascii_of_nat 34).
Proof.
  destruct (enclose_rpath_quoted "/opt/OSPRay Studio/ospStudio")
    as [Hidem Hq].
  split; [exact Hidem|reflexivity].
Defined.
End RenderProperties.

(** * Paths, and the files of an area light *)

Section PathProperties.
Import OsPath Geom Materials Lights PathViews Scene Samples MoreSamples.
Local Open Scope R_scope.

Lemma basename_from_plain (f acc : string) :
  no_sep f = true → basename_from f acc = acc +:+ f.
Proof.
  revert acc. induction f as [|c f IH]; intros acc Hf.
  - simpl. clear Hf. induction acc as [|a acc IHa]; [done|].
    change (String a acc = String a (acc +:+ "")). by rewrite <- IHa.
  - unfold no_sep in Hf. simpl in Hf. apply andb_true_iff in Hf as [Hc Hf].
    simpl. apply negb_true_iff in Hc. rewrite Hc.
    rewrite (IH _ Hf). by rewrite string_app_assoc.
Qed.

Lemma basename_from_sep (x f acc : string) :
  basename_from (x +:+ String "/"%char f) acc = basename_from f "".
Proof.
  revert acc. induction x as [|c x IH]; intros acc; [done|].
  change (basename_from (String c (x +:+ String "/"%char f)) acc
          = basename_from f "").
  simpl. destruct (Ascii.eqb c "/"); apply IH.
Qed.

Lemma string_of_list_ascii_app (a b : list ascii) :
  string_of_list_ascii (a ++ b)
  = string_of_list_ascii a +:+ string_of_list_ascii b.
Proof. induction a as [|c a IH]; [done|]. simpl. by rewrite IH. Qed.

Lemma ends_with_sep_split (d : string) :
  ends_with_sep d = true → ∃ d', d = d' +:+ "/".
Proof.
  unfold ends_with_sep.
  destruct (rev (list_ascii_of_string d)) as [|c l] eqn:E; [done|].
  intros Hc. apply Ascii.eqb_eq in Hc. subst c.
  exists (string_of_list_ascii (rev l)).
  rewrite <- (string_of_list_ascii_of_string d).
  rewrite <- (rev_involutive (list_ascii_of_string d)), E. simpl.
  apply string_of_list_ascii_app.
Qed.

Lemma no_sep_app (a b : string) :
  no_sep a = true → no_sep b = true → no_sep (a +:+ b) = true.
Proof.
  unfold no_sep. intros Ha Hb. rewrite list_ascii_app, forallb_app.
  by rewrite Ha, Hb.
Qed.

Lemma no_sep_starts (f : string) :
  no_sep f = true → starts_with_sep f = false.
Proof.
  destruct f as [|c f]; [done|]. unfold no_sep. simpl.
  intros H. apply andb_true_iff in H as [H _]. by apply negb_true_iff.
Qed.

(** [os.path.basename] undoes [os.path.join] on a plain file name. *)
Lemma basename_join (d f : string) :
  no_sep f = true → basename (join d f) = f.
Proof.
  intros Hf. unfold join, basename. rewrite (no_sep_starts f Hf).
  destruct (String.eqb_spec d "") as [->|Hd]; simpl.
  - change (basename_from f "" = f).
    by rewrite (basename_from_plain f "" Hf).
  - destruct (ends_with_sep d) eqn:E.
    + apply ends_with_sep_split in E as [d' ->].
      rewrite string_app_assoc.
      change ("/" +:+ f) with (String "/"%char f).
      rewrite basename_from_sep. by rewrite (basename_from_plain f "" Hf).
    + change (sep +:+ f) with (String "/"%char f).
      rewrite basename_from_sep. by rewrite (basename_from_plain f "" Hf).
Qed.

Lemma unicode_escape_char_printable (c : ascii) :
  all_printable (unicode_escape_char c) = true.
Proof. by destruct c as [[] [] [] [] [] [] [] []]. Qed.

Lemma unicode_escape_printable (s : string) :
  all_printable (unicode_escape s) = true.
Proof.
  induction s as [|c s IH]; [done|].
  unfold all_printable in *. simpl. rewrite list_ascii_app, forallb_app.
  rewrite IH, andb_true_r. apply unicode_escape_char_printable.
Qed.

Lemma unicode_escape_char_plain (c : ascii) :
  printable c && negb (Nat.eqb (nat_of_ascii c) 92) = true →
  unicode_escape_char c = String c EmptyString.
Proof. by destruct c as [[] [] [] [] [] [] [] []]. Qed.

(** X11. The file path computed for an object: for a name and an extension
    without separator, the absolute path is the object directory joined with
    name.extension, its base name is name.extension again, the relative path
    returned is made of printable ASCII characters only, and the world is
    not touched. *)
Theorem new_object_file_path_names (name extension : string) (kw : Dirs)
    (w : World) :
  no_sep name = true → no_sep extension = true →
  ∃ abspath rel,
    _new_object_file_path name extension kw w = (Ok (abspath, rel), w)
    ∧ abspath = join (object_directory kw) (name +:+ "." +:+ extension)
    ∧ basename abspath = name +:+ "." +:+ extension
    ∧ all_printable rel = true.
Proof.
  intros Hn He. eexists _, _. split; [reflexivity|]. split; [reflexivity|].
  split.
  - apply basename_join. apply no_sep_app; [done|].
    by apply (no_sep_app "." extension).
  - apply unicode_escape_printable.
Qed.

Lemma new_object_file_path_names_witness :
  ∃ rel,
    _new_object_file_path "Light" "mtl"
      (mkDirs "/tmp/project" "/tmp/project/objects") empty_world
    = (Ok ("/tmp/project/objects/Light.mtl", rel), empty_world)
    ∧ basename "/tmp/project/objects/Light.mtl" = "Light.mtl".
Proof.
  destruct (new_object_file_path_names "Light" "mtl"
              (mkDirs "/tmp/project" "/tmp/project/objects") empty_world)
    as (abspath & rel & Hrun & -> & Hbase & _); [reflexivity|reflexivity|].
  exists rel. split; [exact Hrun|exact Hbase].
Defined.

(** X12. Escaping a path: the result holds printable ASCII characters only,
    and a string of printable characters without backslash is returned
    unchanged. *)
Theorem unicode_escape_ascii (s : string) :
  all_printable (unicode_escape s) = true
  ∧ (plain s = true → unicode_escape s = s).
Proof.
  split; [apply unicode_escape_printable|].
  induction s as [|c s IH]; [done|].
  unfold plain. simpl. intros H. apply andb_true_iff in H as [Hc Hs].
  rewrite (unicode_escape_char_plain c Hc), (IH Hs). reflexivity.
Qed.

Lemma unicode_escape_ascii_witness :
  unicode_escape "objects/Light.obj" = "objects/Light.obj".
Proof.
  destruct (unicode_escape_ascii "objects/Light.obj") as [_ H].
  apply H. reflexivity.
Defined.




End PathProperties.

(** * Further properties of the material functions *)

Section MaterialProperties.
Import Materials BundleViews Samples MoreSamples.
Local Open Scope R_scope.

Lemma py_getattr_raises (v : pyval) (name : string) (e : exn) :
  py_getattr v name = Raise e → e = AttributeError.
Proof.
  destruct v; simpl; try (by intros [= <-]).
  - repeat (destruct (String.eqb name _); [discriminate|]). by intros [= <-].
  - destruct (attr_get name attrs); [discriminate|]. by intros [= <-].
Qed.

Lemma to_linear_raises (v : pyval) (e : exn) :
  to_linear v = Raise e → e = AttributeError.
Proof. destruct v; simpl; (discriminate || by intros [= <-]). Qed.

(** X15. Whatever it is handed, the fallback template either returns its
    material with three components within [0, 1], or raises IndexError (a
    colour tuple of fewer than three components); no other exception
    escapes. *)
Theorem fallback_total (name : string) (v : pyval) :
  (∃ red grn blu,
     _write_material_fallback name v = Ok (fallback_snippet red grn blu)
     ∧ unit_component red ∧ unit_component grn ∧ unit_component blu)
  ∨ _write_material_fallback name v = Raise IndexError.
Proof.
  assert (∃ red grn blu,
            Ok (fallback_snippet (PyInt 1) (PyInt 1) (PyInt 1))
            = Ok (fallback_snippet red grn blu)
            ∧ unit_component red ∧ unit_component grn ∧ unit_component blu)
    as Hwhite.
  { exists (PyInt 1), (PyInt 1), (PyInt 1).
    repeat split; auto using unit_component_one. }
  unfold _write_material_fallback.
  destruct (py_getattr v "default_color") as [dc|e] eqn:Edc; simpl.
  2: { left. apply py_getattr_raises in Edc as ->. exact Hwhite. }
  destruct (to_linear dc) as [lcol|e] eqn:El; simpl.
  2: { left. apply to_linear_raises in El as ->. exact Hwhite. }
  destruct lcol as [|r [|g [|b lcol]]]; simpl; try (by right).
  destruct (in_unit r && in_unit g && in_unit b) eqn:E; simpl.
  - left. apply andb_true_iff in E as [E Hb].
    apply andb_true_iff in E as [Hr Hg].
    apply in_unit_true in Hr, Hg, Hb.
    exists (PyFloat r), (PyFloat g), (PyFloat b).
    split; [done|]. repeat split; eexists; (split; [reflexivity|lra]).
  - left. exact Hwhite.
Qed.

Lemma normal_line_without_normal (m : MaterialValues) g :
  has_normal m = false → normal_line (with_getitem m g) = normal_line m.
Proof. intros H. unfold normal_line. simpl. by rewrite H. Qed.

(** X18. A bundle without normal map is never asked for its "normal"
    string: every material function of the dispatch table returns the same
    result when the bundle's strings are replaced by others that agree on
    all the other property names. *)
Theorem material_functions_skip_normal name (m : MaterialValues)
    (g : string → Res text) (s : string) f :
  MATERIALS !! s = Some f →
  has_normal m = false →
  (∀ k, k ≠ "normal" → g k = mv_getitem m k) →
  f name (with_getitem m g) = f name m.
Proof.
  intros Hf Hn Hg. apply elem_of_list_to_map_2 in Hf.
  repeat (apply elem_of_cons in Hf as [Hf|Hf];
          [injection Hf as -> ->|]);
    [..|by apply elem_of_nil in Hf].
  - unfold _write_material_passthrough. simpl. by rewrite Hg.
  - unfold _write_material_glass.
    rewrite normal_line_without_normal by done. simpl. by rewrite !Hg.
  - unfold _write_material_disney.
    rewrite normal_line_without_normal by done. simpl. by rewrite !Hg.
  - unfold _write_material_diffuse.
    rewrite normal_line_without_normal by done. simpl. by rewrite !Hg.
  - unfold _write_material_mixed.
    rewrite normal_line_without_normal by done. reflexivity.
  - unfold _write_material_carpaint.
    rewrite normal_line_without_normal by done. simpl. by rewrite !Hg.
  - unfold _write_material_pbr.
    rewrite normal_line_without_normal by done. simpl. by rewrite !Hg.
  - unfold _write_material_emission. simpl. by rewrite !Hg.
Qed.

Lemma material_functions_skip_normal_witness :
  _write_material_emission "Lamp"
    (with_getitem emission_bundle
       (λ k, if String.eqb k "normal" then Ok [T "normal 4.0"]
             else mv_getitem emission_bundle k))
  = _write_material_emission "Lamp" emission_bundle.
Proof.
  apply (material_functions_skip_normal "Lamp" emission_bundle _ "Emission").
  - reflexivity.
  - reflexivity.
  - intros k Hk. by destruct (String.eqb_spec k "normal").
Defined.

End MaterialProperties.

Section MaterialProperties2.
Import Materials BundleViews Samples MoreSamples.
Local Open Scope R_scope.

Lemma field_of_specular (shadertype : string) :
  field_of shadertype "specular" = Some "specular".
Proof.
  assert (_FIELD_MAPPING !! (shadertype, "specular") = None) as Hnone.
  { apply not_elem_of_list_to_map_1. simpl.
    repeat (apply not_elem_of_cons; split; [intros [= _ H]; discriminate H|]).
    apply not_elem_of_nil. }
  unfold field_of. rewrite Hnone. reflexivity.
Qed.

(** X19. Specular follows metallic, for a float property [specular].  When
    the material's metallic value is a nonzero float, the line written
    always carries a nonzero value: the property's own when it is
    positive, the metallic value otherwise.  When metallic is a nonzero
    int, a positive specular is written as it is, and otherwise the int
    takes its place and the [.8] format refuses it: ValueError, no line.
    When metallic is a string that spells a nonzero number, it takes the
    place of a specular that is not positive, cut to 8 characters.  No
    shader type renames or excludes the field. *)
Theorem specular_follows_metallic (kw : PropArgs) (w : World)
    (specular : R) :
  kw_propname kw = "specular" →
  kw_proptype kw = "float" →
  kw_propvalue kw = PyFloat specular →
  let metallic_is v :=
    attr_get "metallic" (shaderproperties (kw_matval kw)) = Some v in
  (∀ metallic, metallic_is (PyFloat metallic) → metallic ≠ 0 →
     ∃ x, _write_value kw w = (Ok [T "specular"; T " "; F8 x], w)
          ∧ x ≠ 0
          ∧ (0 < specular → x = specular)
          ∧ (specular <= 0 → x = metallic))
  ∧ (∀ z, metallic_is (PyInt z) → z ≠ 0%Z →
       FloatLiteral.int_overflows z = false →
       (0 < specular →
        _write_value kw w = (Ok [T "specular"; T " "; F8 specular], w))
       ∧ (specular <= 0 → _write_value kw w = (Raise ValueError, w)))
  ∧ (∀ s, metallic_is (PyStr s) → py_float_truthy (PyStr s) = Ok true →
       (0 < specular →
        _write_value kw w = (Ok [T "specular"; T " "; F8 specular], w))
       ∧ (specular <= 0 →
          _write_value kw w
          = (Ok [T "specular"; T " "; T (String.substring 0 8 s)], w))).
Proof.
  intros Hname Htype Hval metallic_is.
  pose proof (field_of_specular (kw_shadertype kw)) as Hf.
  rewrite <- Hname in Hf at 1.
  rewrite (write_value_renamed kw w "specular" Hf), Htype.
  assert (∀ v, metallic_is v →
            _write_value_special_cases kw
            = (truthy ← (if py_hasattr v "is_texture" then Ok true
                         else py_float_truthy v);
               if truthy : bool
               then Ok (if Rle_bool specular 0 then v else PyFloat specular)
               else Ok (PyFloat specular))) as Hcases.
  { intros v Hv. unfold metallic_is in Hv.
    unfold _write_value_special_cases. rewrite Hname, Hval, Hv.
    reflexivity. }
  split; [|split].
  - intros metallic Hmet Hm. rewrite (Hcases _ Hmet).
    exists (if Rle_bool specular 0 then metallic else specular). split.
    + change (py_hasattr (PyFloat metallic) "is_texture") with false.
      cbv iota. unfold py_float_truthy.
      rewrite (Req_bool_false metallic 0 Hm). simpl.
      by destruct (Rle_bool specular 0).
    + unfold Rle_bool. destruct (Rle_dec specular 0); repeat split; lra.
  - intros z Hmet Hz Hover. rewrite (Hcases _ Hmet).
    change (py_hasattr (PyInt z) "is_texture") with false.
    cbv iota. unfold py_float_truthy. rewrite Hover.
    assert ((z =? 0)%Z = false) as -> by (by apply Z.eqb_neq).
    simpl. unfold Rle_bool.
    destruct (Rle_dec specular 0); split; intros H; try lra; reflexivity.
  - intros s Hmet Hs. rewrite (Hcases _ Hmet).
    change (py_hasattr (PyStr s) "is_texture") with false.
    cbv iota. rewrite Hs. simpl. unfold Rle_bool.
    destruct (Rle_dec specular 0); split; intros H; try lra; reflexivity.
Qed.

Lemma specular_follows_metallic_witness :
  _write_value
    (mkPropArgs "float" "specular" "Disney" (PyFloat 0) "Box"
       (mkMaterialValues "Disney" (PyRGB [1; 1; 1]) (λ _, Raise KeyError)
          false [] PyNone (λ _ _, Raise AttributeError) PyNone
          [("metallic", PyFloat 1)] (PyFloat 1) (PyFloat 1))
       "/tmp/objects")
    empty_world
  = (Ok [T "specular"; T " "; F8 1], empty_world).
Proof.
  destruct (specular_follows_metallic
              (mkPropArgs "float" "specular" "Disney" (PyFloat 0) "Box"
                 (mkMaterialValues "Disney" (PyRGB [1; 1; 1])
                    (λ _, Raise KeyError) false [] PyNone
                    (λ _ _, Raise AttributeError) PyNone
                    [("metallic", PyFloat 1)] (PyFloat 1) (PyFloat 1))
                 "/tmp/objects")
              empty_world 0)
    as [Hfloat _]; [reflexivity|reflexivity|reflexivity|].
  destruct (Hfloat 1) as (x & Hrun & _ & _ & Hx); [reflexivity|lra|].
  rewrite Hrun, Hx by lra. reflexivity.
Defined.


End MaterialProperties2.

Section SkippedProperties.
Import Materials BundleViews Samples MoreSamples.
Local Open Scope R_scope.

(** The field mapping excludes no property but bump and displacement. *)
Lemma field_of_None (shadertype propname : string) :
  field_of shadertype propname = None →
  propname = "bump" ∨ propname = "displacement".
Proof.
  unfold field_of.
  destruct (_FIELD_MAPPING !! (shadertype, propname)) as [[field|]|] eqn:H;
    [discriminate|intros _|discriminate].
  apply elem_of_list_to_map_2 in H.
  repeat (apply elem_of_cons in H as [H|H];
          [first [discriminate H
                 |injection H as _ ->; first [by left|by right]]|]).
  by apply elem_of_nil in H.
Qed.

(** X29. Only bump and displacement are ever skipped as unsupported: for
    every other property name, whatever the shader type, neither the value
    helper nor the texture-reference helper prints anything or touches the
    world. *)
Theorem only_bump_and_displacement_skipped (kw : PropArgs) (w : World) :
  kw_propname kw ≠ "bump" →
  kw_propname kw ≠ "displacement" →
  (_write_value kw w).2 = w ∧ (_write_texref kw w).2 = w.
Proof.
  intros Hb Hd.
  destruct (field_of (kw_shadertype kw) (kw_propname kw)) as [field|] eqn:Hf.
  - split.
    + unfold _write_value. rewrite Hf. unfold mbind, Py_bind, lift.
      by destruct (_write_value_special_cases kw).
    + unfold _write_texref. rewrite Hf.
      repeat (match goal with
              | |- context [if ?b then _ else _] => destruct b
              end; try reflexivity).
  - by destruct (field_of_None _ _ Hf).
Qed.

Lemma only_bump_and_displacement_skipped_witness :
  (_write_value roughness_args empty_world).2 = empty_world
  ∧ (_write_texref roughness_args empty_world).2 = empty_world.
Proof.
  apply (only_bump_and_displacement_skipped roughness_args empty_world);
    discriminate.
Defined.
End SkippedProperties.

(** * The sun-sky light without a direction *)

Section SunSkyFailure.
Import OsPath Geom Materials Lights Scene Samples MoreSamples.
Local Open Scope R_scope.

(** X23. A sun-sky light needs a direction: with the zero vector the
    normalisation divides by zero, the call raises ZeroDivisionError, and it
    does so before the warning about the sky intensity is printed. *)
Theorem sunskylight_zero_direction name distance turbidity albedo
    sun_intensity sky_intensity (w : World) :
  write_sunskylight name (mkVector 0 0 0) distance turbidity albedo
    sun_intensity sky_intensity w
  = (Raise ZeroDivisionError, w).
Proof.
  unfold write_sunskylight, mbind, Py_bind, lift, py_div.
  rewrite PLACEMENT_multVec. cbn [vx vy vz].
  replace (0 ^ 2 + 0 ^ 2 + (- 0) ^ 2) with 0 by ring.
  rewrite sqrt_0. by rewrite Req_bool_true.
Qed.
End SunSkyFailure.

(** * Point lights, distant lights and cameras *)

Section LightWriters.
Import OsPath Geom Materials Lights Scene Samples MoreSamples MoreWriters
  WriterSamples.
Local Open Scope R_scope.

(** One light group among nodes that are none: the pass moves its lights to
    the lights manager and takes the group out of the world. *)
Lemma single_group_moves (top w lm : list (string * json))
    (wc1 wc2 lc ls : list json) (g : json) :
  obj_get "world" top = Some (JObj w) →
  obj_get "children" w = Some (JArr (wc1 ++ g :: wc2)) →
  obj_get "lightsManager" top = Some (JObj lm) →
  obj_get "children" lm = Some (JArr lc) →
  Forall (λ x, is_lights x = Ok false) (wc1 ++ wc2) →
  is_lights g = Ok true →
  getitem g "children" = Ok (JArr ls) →
  ∃ out,
    _render_mergelightgroups (JObj top) = Ok out
    ∧ world_children out = Ok (JArr (wc1 ++ wc2))
    ∧ lightsmanager_children out = Ok (JArr (lc ++ ls)).
Proof.
  intros Hw Hwc Hlm Hlc Hno Hg Hls.
  apply Forall_app in Hno as [Hno1 Hno2].
  assert (∀ l, Forall (λ x, is_lights x = Ok false) l →
               Forall (λ x, is_lights_b x = false) l) as Hb.
  { intros l H. eapply Forall_impl; [exact H|]. intros x Hx.
    unfold is_lights_b. by rewrite Hx. }
  assert (∀ l, Forall (λ x, is_lights x = Ok false) l →
               Forall (λ x, negb (is_lights_b x) = true) l) as Hnb.
  { intros l H. eapply Forall_impl; [exact (Hb l H)|]. intros x Hx.
    by rewrite Hx. }
  assert (is_lights_b g = true) as Hgb by (unfold is_lights_b; by rewrite Hg).
  eexists. split.
  - apply (mergelightgroups_run top w lm (wc1 ++ g :: wc2) lc Hw Hwc Hlm Hlc).
    apply Forall_app. split; [|constructor].
    + eapply Forall_impl; [exact Hno1|]. intros x Hx. split.
      * by rewrite Hx.
      * rewrite Hx. discriminate.
    + split; [by rewrite Hg|]. intros _. by exists ls.
    + eapply Forall_impl; [exact Hno2|]. intros x Hx. split.
      * by rewrite Hx.
      * rewrite Hx. discriminate.
  - rewrite !List.filter_app. simpl. rewrite Hgb. simpl.
    rewrite (filter_none is_lights_b wc1 (Hb _ Hno1)).
    rewrite (filter_none is_lights_b wc2 (Hb _ Hno2)).
    rewrite (filter_all _ wc1 (Hnb _ Hno1)).
    rewrite (filter_all _ wc2 (Hnb _ Hno2)).
    simpl. unfold node_children. rewrite Hls. rewrite app_nil_r. split.
    + unfold world_children. simpl.
      rewrite obj_get_set_ne by done. rewrite obj_get_set_eq. simpl.
      by rewrite obj_get_set_eq.
    + unfold lightsmanager_children. simpl.
      rewrite obj_get_set_eq. simpl. by rewrite obj_get_set_eq.
Qed.

(** X24. A point light in the scene: whenever the write function returns,
    its fragment holds one light with the position turned into the
    renderer's axes, (x, z, -y), and the power passed on as it is; and
    light-group flattening of a scene that holds this fragment among
    non-light nodes puts that light last under the lights manager and
    leaves the other nodes under world, in order. *)
Theorem pointlight_joins_lights_manager name (pos : Vector) color power
    (fragment : json) (top w lm : list (string * json))
    (wc1 wc2 lc : list json) :
  write_pointlight name pos color power = Ok fragment →
  obj_get "world" top = Some (JObj w) →
  obj_get "children" w = Some (JArr (wc1 ++ fragment :: wc2)) →
  obj_get "lightsManager" top = Some (JObj lm) →
  obj_get "children" lm = Some (JArr lc) →
  Forall (λ x, is_lights x = Ok false) (wc1 ++ wc2) →
  ∃ the_light out,
    light_parameter fragment "position"
    = Some (JArr [JNum (vx pos); JNum (vz pos); JNum (- vy pos)])
    ∧ light_parameter fragment "intensity" = Some (JNum power)
    ∧ getitem the_light "name" = Ok (JStr name)
    ∧ _render_mergelightgroups (JObj top) = Ok out
    ∧ world_children out = Ok (JArr (wc1 ++ wc2))
    ∧ lightsmanager_children out = Ok (JArr (lc ++ [the_light])).
Proof.
  intros Hrun Hw Hwc Hlm Hlc Hno.
  unfold write_pointlight in Hrun. rewrite PLACEMENT_multVec in Hrun.
  destruct (to_linear color) as [c|e]; [|discriminate].
  simpl in Hrun.
  destruct (tuple_index c 0) as [c0|e]; [|discriminate]. simpl in Hrun.
  destruct (tuple_index c 1) as [c1|e]; [|discriminate]. simpl in Hrun.
  destruct (tuple_index c 2) as [c2|e]; [|discriminate]. simpl in Hrun.
  injection Hrun as <-.
  edestruct (single_group_moves top w lm wc1 wc2 lc) as (out & Hout & H1 & H2);
    [exact Hw|exact Hwc|exact Hlm|exact Hlc|exact Hno|reflexivity|reflexivity|].
  eexists _, out.
  split; [reflexivity|]. split; [reflexivity|].
  split; [|split; [exact Hout|split; [exact H1|exact H2]]].
  reflexivity.
Qed.

Lemma pointlight_joins_lights_manager_witness :
  ∃ out,
    _render_mergelightgroups
      (scene [mesh_node; lamp_fragment; camera_node "Camera"]) = Ok out
    ∧ world_children out = Ok (JArr [mesh_node; camera_node "Camera"])
    ∧ light_parameter lamp_fragment "position"
      = Some (JArr [JNum 1; JNum 3; JNum (- 2)]).
Proof.
  destruct (pointlight_joins_lights_manager "Lamp" (mkVector 1 2 3)
              (PyRGB [1; 1; 1]) 100 lamp_fragment
              (scene_top [mesh_node; lamp_fragment; camera_node "Camera"])
              (world_of [mesh_node; lamp_fragment; camera_node "Camera"])
              (lights_manager_of [])
              [mesh_node] [camera_node "Camera"] [])
    as (the_light & out & Hpos & _ & _ & Hout & Hworld & _);
    try reflexivity.
  - repeat constructor.
  - exists out. split; [exact Hout|]. split; [exact Hworld|exact Hpos].
Defined.

(** X25. A distant light in the scene: whenever the write function returns,
    its fragment holds one light with the direction turned into the
    renderer's axes, (x, z, -y), and the angular diameter and the power
    passed on without any unit conversion; flattening a scene that holds the
    fragment among non-light nodes puts that light last under the lights
    manager. *)
Theorem distantlight_joins_lights_manager name color power
    (direction : Vector) angle
    (fragment : json) (top w lm : list (string * json))
    (wc1 wc2 lc : list json) :
  write_distantlight name color power direction angle = Ok fragment →
  obj_get "world" top = Some (JObj w) →
  obj_get "children" w = Some (JArr (wc1 ++ fragment :: wc2)) →
  obj_get "lightsManager" top = Some (JObj lm) →
  obj_get "children" lm = Some (JArr lc) →
  Forall (λ x, is_lights x = Ok false) (wc1 ++ wc2) →
  ∃ the_light out,
    light_parameter fragment "direction"
    = Some (JArr [JNum (vx direction); JNum (vz direction);
                  JNum (- vy direction)])
    ∧ light_parameter fragment "angularDiameter" = Some (JNum angle)
    ∧ light_parameter fragment "intensity" = Some (JNum power)
    ∧ getitem the_light "name" = Ok (JStr name)
    ∧ _render_mergelightgroups (JObj top) = Ok out
    ∧ world_children out = Ok (JArr (wc1 ++ wc2))
    ∧ lightsmanager_children out = Ok (JArr (lc ++ [the_light])).
Proof.
  intros Hrun Hw Hwc Hlm Hlc Hno.
  unfold write_distantlight in Hrun. rewrite PLACEMENT_multVec in Hrun.
  destruct (to_linear color) as [c|e]; [|discriminate].
  simpl in Hrun.
  destruct (tuple_index c 0) as [c0|e]; [|discriminate]. simpl in Hrun.
  destruct (tuple_index c 1) as [c1|e]; [|discriminate]. simpl in Hrun.
  destruct (tuple_index c 2) as [c2|e]; [|discriminate]. simpl in Hrun.
  injection Hrun as <-.
  edestruct (single_group_moves top w lm wc1 wc2 lc) as (out & Hout & H1 & H2);
    [exact Hw|exact Hwc|exact Hlm|exact Hlc|exact Hno|reflexivity|reflexivity|].
  eexists _, out.
  split; [reflexivity|]. split; [reflexivity|]. split; [reflexivity|].
  split; [|split; [exact Hout|split; [exact H1|exact H2]]].
  reflexivity.
Qed.

Lemma distantlight_joins_lights_manager_witness :
  ∃ out,
    _render_mergelightgroups
      (scene [beam_fragment; mesh_node]) = Ok out
    ∧ world_children out = Ok (JArr [mesh_node])
    ∧ light_parameter beam_fragment "angularDiameter" = Some (JNum 2).
Proof.
  destruct (distantlight_joins_lights_manager "Beam" (PyRGB [1; 1; 1]) 5
              (mkVector 0 0 (-1)) 2 beam_fragment
              (scene_top [beam_fragment; mesh_node])
              (world_of [beam_fragment; mesh_node])
              (lights_manager_of [])
              [] [mesh_node] [])
    as (the_light & out & _ & Hangle & _ & _ & Hout & Hworld & _);
    try reflexivity.
  - repeat constructor.
  - exists out. split; [exact Hout|]. split; [exact Hworld|exact Hangle].
Defined.

(** X26. A point light and a distant light are written exactly when the
    colour has a linear form of at least three components; further
    components are ignored. *)
Theorem light_colour_components name (v : Vector) color power angle :
  (is_Ok (write_pointlight name v color power)
   ↔ ∃ lin, to_linear color = Ok lin ∧ (3 <= length lin)%nat)
  ∧ (is_Ok (write_distantlight name color power v angle)
     ↔ ∃ lin, to_linear color = Ok lin ∧ (3 <= length lin)%nat).
Proof.
  unfold write_pointlight, write_distantlight.
  destruct (to_linear color) as [lin|e]; simpl.
  - destruct lin as [|c0 [|c1 [|c2 rest]]]; simpl;
      (split; (split; [intros H|intros (lin' & [= <-] & H)]));
      try done; try (simpl in H; lia);
      (eexists; split; [reflexivity|simpl; lia]).
  - split; (split; [done|by intros (lin & H & _)]).
Qed.
Lemma light_colour_components_witness :
  is_Ok (write_pointlight "Lamp" (mkVector 1 2 3) (PyRGB [1; 1; 1; 1]) 100)
  ∧ ¬ is_Ok (write_distantlight "Beam" (PyRGB [1; 1]) 5 (mkVector 1 2 3) 2).
Proof.
  split.
  - apply (light_colour_components "Lamp" (mkVector 1 2 3)
             (PyRGB [1; 1; 1; 1]) 100 0).
    exists [1; 1; 1; 1]. split; [reflexivity|simpl; lia].
  - intros H.
    apply (light_colour_components "Beam" (mkVector 1 2 3) (PyRGB [1; 1]) 5 2)
      in H as (lin & [= <-] & Hlen).
    simpl in Hlen. lia.
Defined.
End LightWriters.

(** * The camera writer *)

Section CameraWriter.
Import OsPath Geom Materials Lights Scene Samples MoreSamples MoreWriters
  PathViews WriterSamples.
Local Open Scope R_scope.

(** X27. A camera with a resolution of height zero: computing the aspect
    ratio raises ZeroDivisionError before any file is written. *)
Theorem camera_zero_height (Rotation_Q : Placement → R * R * R * R) name
    (pos : Placement) (updir target : Vector)
    (fov : R) (width : Z) (kw : Dirs) (w : World) :
  write_camera Rotation_Q name pos updir target fov (width, 0%Z) kw w
  = (Raise ZeroDivisionError, w).
Proof.
  unfold write_camera, mbind, Py_bind, lift, py_div.
  by rewrite Req_bool_true.
Qed.

(** X28. A camera with a resolution of nonzero height, named without
    separator: the call prints nothing and writes one file only, name.gltf
    in the object directory; that file carries the field of view in radians
    and the aspect ratio width / height; the node returned is tagged as a
    camera, so that the camera pass finds it, and is no light group. *)
Theorem camera_file_and_node (Rotation_Q : Placement → R * R * R * R) name
    (pos : Placement) (updir target : Vector)
    (fov : R) (width height : Z) (kw : Dirs) (w : World) :
  height ≠ 0%Z →
  no_sep name = true →
  let gltf_file := join (object_directory kw) (name +:+ "." +:+ "gltf") in
  ∃ node w' gltf,
    write_camera Rotation_Q name pos updir target fov (width, height) kw w
    = (Ok node, w')
    ∧ console w' = console w
    ∧ (∀ path, path ≠ gltf_file → files w' !! path = files w !! path)
    ∧ files w' !! gltf_file = Some (FText gltf)
    ∧ basename gltf_file = name +:+ "." +:+ "gltf"
    ∧ text_lines gltf !! 18%nat
      = Some [T ("        " +:+ q "yfov" +:+ ": "); FStr (fov * (PI / 180));
              T ","]
    ∧ text_lines gltf !! 20%nat
      = Some [T ("        " +:+ q "aspectRatio" +:+ " : ");
              FStr (IZR width / IZR height)]
    ∧ is_camera node = Ok true ∧ is_lights node = Ok false.
Proof.
  intros Hh Hname gltf_file.
  assert (IZR height ≠ 0) as Hr by (by apply not_0_IZR).
  unfold write_camera, mbind at 1, Py_bind, lift at 1, py_div.
  rewrite (Req_bool_false _ _ Hr).
  destruct (Rotation_Q (multiply PLACEMENT pos)) as [[[q0 q1] q2] q3] eqn:Hq.
  eexists _, _, _. split; [reflexivity|]. simpl.
  split; [reflexivity|]. split; [|split; [|split; [|split; [|split]]]].
  - intros path Hp. by rewrite lookup_insert_ne.
  - apply lookup_insert_eq.
  - apply basename_join. apply no_sep_app; [done|]. reflexivity.
  - reflexivity.
  - reflexivity.
  - split; reflexivity.
Qed.

Lemma camera_file_and_node_witness :
  ∃ node w',
    write_camera (λ _, (0, 0, 0, 1)) "Front" identity_placement
      (mkVector 0 0 1) (mkVector 0 1 0) 40 (800%Z, 600%Z) project_dirs
      empty_world
    = (Ok node, w')
    ∧ is_camera node = Ok true
    ∧ files w' !! "/tmp/project/objects/Box.obj" = None.
Proof.
  destruct (camera_file_and_node (λ _, (0, 0, 0, 1)) "Front"
              identity_placement (mkVector 0 0 1) (mkVector 0 1 0) 40
              800%Z 600%Z project_dirs empty_world)
    as (node & w' & gltf & Hrun & _ & Hother & _ & _ & _ & _ & Hcam & _);
    [discriminate|reflexivity|].
  exists node, w'. split; [exact Hrun|]. split; [exact Hcam|].
  rewrite Hother; [reflexivity|discriminate].
Defined.
End CameraWriter.
